(** * pygeneses: the REINFORCE policy network and the vitaboard views

    A shallow embedding of [pygeneses/models/reinforce/reinforce_nn.py]
    (class [Agent]: [__init__], [forward], [act]) and of the [/groups] and
    [/stats] views of [pygeneses/vitaboard/app.py].

    Tensors hold exact reals: every float32 value of the program is read as
    the real number it stands for, and [exp], [ln] are the real functions.
    The calls into torch that the repository does not define ([torch.topk],
    [torch.multinomial]) are an interface, [Torch], that carries their
    documented contract; instances of it are built below, one of them
    after the CPU kernel of [torch.topk]. *)

From Stdlib Require Import Ascii String.
From Stdlib Require Import Reals Lra Lia ZArith Bool Arith List.
From Stdlib Require Import Permutation Sorted.
Import ListNotations.

Open Scope R_scope.

(** ** Outcomes of a call: a value, or the exception it raises *)

Module Outcome.

(** The exceptions the modelled code can raise, by cause.

    - [ShapeError]: the [RuntimeError] of [nn.Linear] when the last
      dimension of its input differs from [in_features];
    - [InvalidConfigError]: the [RuntimeError] of [torch.topk] when [k] is
      larger than the dimension it selects from;
    - [SampleError]: sampling from a categorical distribution without
      categories;
    - [IndexError], [ValueError]: indexing an empty array, [item()] on a
      tensor that does not hold exactly one element;
    - [RequiresGradError]: the [RuntimeError] of converting to a numpy
      array a tensor that requires grad ("Can't call numpy() on Tensor
      that requires grad"). *)
Inductive Error : Type :=
| ShapeError
| InvalidConfigError
| SampleError
| IndexError
| ValueError
| RequiresGradError.

Inductive result (A : Type) : Type :=
| Ok (a : A)
| Err (e : Error).

Arguments Ok {A} a.
Arguments Err {A} e.

Definition bind {A B : Type} (r : result A) (k : A -> result B) : result B :=
  match r with
  | Ok a => k a
  | Err e => Err e
  end.

Definition is_ok {A : Type} (r : result A) : bool :=
  match r with
  | Ok _ => true
  | Err _ => false
  end.

End Outcome.

Export Outcome.

Notation "x <- c1 ;; c2" := (bind c1 (fun x => c2))
  (at level 61, c1 at next level, right associativity).
Notation "' pat <- c1 ;; c2" := (bind c1 (fun x => match x with pat => c2 end))
  (at level 61, pat pattern, c1 at next level, right associativity).

(** ** Tensors *)

(** A two-dimensional tensor: its rows, and whether autograd tracks it. *)
Record Tensor : Type := mkTensor {
  data : list (list R);
  requires_grad : bool
}.

Inductive Device : Type :=
| CPU
| CUDA (ordinal : nat).

Definition sum (xs : list R) : R := fold_right Rplus 0 xs.

(** [torch.from_numpy(state).float()]: a one-dimensional tensor. *)
Definition from_numpy (state : list R) : list R := state.

(** [.unsqueeze(0)]: a batch holding the one row. *)
Definition unsqueeze0 (row : list R) : Tensor := mkTensor [row] false.

(** [.to(device)] and [.cpu()] move a tensor and keep its values. *)
Definition to (d : Device) (t : Tensor) : Tensor := t.
Definition cpu (t : Tensor) : Tensor := t.

(** [.clone()] copies the values and stays in the autograd graph;
    [.detach()] yields the same values outside of it. *)
Definition clone (t : Tensor) : Tensor := t.
Definition detach (t : Tensor) : Tensor := mkTensor (data t) false.

(** [F.relu] *)
Definition relu (t : Tensor) : Tensor :=
  mkTensor (map (map (Rmax 0)) (data t)) (requires_grad t).

(** [F.softmax(x, dim=1)]: every row is normalised by the sum of its
    exponentials. *)
Definition softmax_row (row : list R) : list R :=
  map (fun v => exp v / sum (map exp row)) row.

Definition softmax (t : Tensor) : Tensor :=
  mkTensor (map softmax_row (data t)) (requires_grad t).

(** [torch.log] *)
Definition log (rows : list (list R)) : list (list R) := map (map ln) rows.

(** ** [nn.Linear] *)

Record Linear : Type := mkLinear {
  in_features : nat;
  out_features : nat;
  weight : nat -> nat -> R;   (* weight[j][i], j < out_features, i < in_features *)
  bias : nat -> R             (* bias[j] *)
}.

(** The [j]-th output unit on one input row: [sum_i row[i] * weight[j][i]]. *)
Definition dot (w : nat -> R) (row : list R) : R :=
  sum (map (fun i => nth i row 0 * w i) (seq 0 (length row))).

(** Calling the layer.  Its parameters require grad, and so does its output. *)
Definition linear (l : Linear) (x : Tensor) : result Tensor :=
  if forallb (fun row => length row =? in_features l)%nat (data x)
  then Ok (mkTensor
             (map (fun row =>
                     map (fun j => dot (weight l j) row + bias l j)
                         (seq 0 (out_features l)))
                  (data x))
             true)
  else Err ShapeError.

(** ** The agent *)

Record Agent : Type := mkAgent {
  device : Device;
  fc1 : Linear;
  fc2 : Linear
}.

(** The values of the trainable parameters of the two layers. *)
Record Params : Type := mkParams {
  fc1_weight : nat -> nat -> R;
  fc1_bias : nat -> R;
  fc2_weight : nat -> nat -> R;
  fc2_bias : nat -> R
}.

(** [Agent.__init__(s_size, a_size, device, h_size)]; [theta] is what the
    layers hold (as initialised, or as left by training). *)
Definition Agent_init (s_size a_size : nat) (dev : Device) (h_size : nat)
    (theta : Params) : Agent :=
  {| device := dev;
     fc1 := mkLinear s_size h_size (fc1_weight theta) (fc1_bias theta);
     fc2 := mkLinear h_size a_size (fc2_weight theta) (fc2_bias theta) |}.

(** [Agent.forward] *)
Definition forward (ag : Agent) (x : Tensor) : result (Tensor * Tensor) :=
  x <- linear (fc1 ag) x ;;
  let embed := clone x in
  let x := relu x in
  x <- linear (fc2 ag) x ;;
  Ok (softmax x, detach embed).

(** ** The torch library calls [act] relies on *)

(** What [torch.topk(input, k)] (largest, sorted) promises of the values
    [vs] and indices [ids] it returns for a row [xs]: [k] distinct
    positions of the row, the values found there, in non-increasing order,
    and no value left out exceeds a value taken.  The documentation fixes
    no order among equal values. *)
Record is_topk (xs : list R) (k : nat) (vs : list R) (ids : list nat) : Prop :=
  mk_is_topk {
  topk_length : length ids = k;
  topk_nodup : NoDup ids;
  topk_range : Forall (fun i => (i < length xs)%nat) ids;
  topk_values : vs = map (fun i => nth i xs 0) ids;
  topk_sorted : StronglySorted Rge vs;
  topk_largest : forall i, (i < length xs)%nat -> ~ In i ids ->
                           Forall (fun v => nth i xs 0 <= v) vs
}.

(** [torch.topk] on one row ([None]: "selected index k out of range"), and
    [torch.multinomial] drawing one index from a row of weights with the
    state of the random generator threaded through. *)
Class Torch : Type := {
  Generator : Type;
  torch_topk : list R -> nat -> option (list R * list nat);
  torch_multinomial : Generator -> list R -> nat * Generator;
  torch_topk_out_of_range :
    forall xs k, (length xs < k)%nat -> torch_topk xs k = None;
  torch_topk_spec :
    forall xs k, (k <= length xs)%nat ->
      exists vs ids, torch_topk xs k = Some (vs, ids) /\ is_topk xs k vs ids;
  torch_multinomial_spec :
    forall g xs, Forall (fun p => 0 <= p) xs -> 0 < sum xs ->
      (fst (torch_multinomial g xs) < length xs)%nat /\
      0 < nth (fst (torch_multinomial g xs)) xs 0
}.

Section Act.

Context {T : Torch}.

(** [torch.topk(probs, k)] along the last dimension of a batch: row by row. *)
Fixpoint topk_batch (rows : list (list R)) (k : nat)
    : result (list (list R) * list (list nat)) :=
  match rows with
  | [] => Ok ([], [])
  | row :: rows' =>
      match torch_topk row k with
      | None => Err InvalidConfigError
      | Some (vs, ids) =>
          '(values, indices) <- topk_batch rows' k ;;
          Ok (vs :: values, ids :: indices)
      end
  end.

(** [a[0]] and [a[-1]] of a numpy array. *)
Definition at_first {A : Type} (a : list A) : result A :=
  match a with
  | [] => Err IndexError
  | x :: _ => Ok x
  end.

Definition at_last {A : Type} (a : list A) : result A :=
  at_first (rev a).

(** [t.item()] *)
Definition item {A : Type} (t : list A) : result A :=
  match t with
  | [x] => Ok x
  | _ => Err ValueError
  end.

(** *** [torch.distributions.Categorical] *)

(** [torch.finfo(torch.float32).eps] *)
Definition eps : R := / 2 ^ 23.

(** [clamp_probs] of [torch/distributions/utils.py]:
    [probs.clamp(min=eps, max=1 - eps)] *)
Definition clamp_probs (p : R) : R := Rmin (Rmax p eps) (1 - eps).

(** [Categorical(probs)] keeps [probs / probs.sum(-1, keepdim=True)]. *)
Record Categorical : Type := mkCategorical {
  cat_probs : list (list R)
}.

Definition Categorical_init (probs : Tensor) : Categorical :=
  mkCategorical (map (fun row => map (fun p => p / sum row) row) (data probs)).

(** [Categorical.logits] of a distribution built from [probs]:
    [probs_to_logits(self.probs)], that is [torch.log(clamp_probs(probs))]. *)
Definition logits (m : Categorical) : list (list R) :=
  log (map (map clamp_probs) (cat_probs m)).

(** [m.sample()]: one draw per row of the batch. *)
Fixpoint sample_rows (g : Generator) (rows : list (list R))
    : result (list nat) * Generator :=
  match rows with
  | [] => (Ok [], g)
  | row :: rows' =>
      match row with
      | [] => (Err SampleError, g)
      | _ :: _ =>
          let (a, g1) := torch_multinomial g row in
          match sample_rows g1 rows' with
          | (Ok actions, g2) => (Ok (a :: actions), g2)
          | (Err e, g2) => (Err e, g2)
          end
      end
  end.

Definition sample (m : Categorical) (g : Generator)
    : result (list nat) * Generator :=
  sample_rows g (cat_probs m).

(** [m.log_prob(action)]: gathers from [m.logits], row by row, the entry
    of the drawn index. *)
Definition log_prob (m : Categorical) (action : list nat) : list R :=
  map (fun ra => nth (snd ra) (fst ra) 0) (combine (logits m) action).

(** [np.array([t])] for a tensor [t] of one dimension: numpy asks the
    tensor for its array, which torch refuses for a tensor that requires
    grad. *)
Definition np_array (t_requires_grad : bool) (t : list R)
    : result (list (list R)) :=
  if t_requires_grad then Err RequiresGradError else Ok [t].

(** *** [Agent.act] *)

(** The four values [act] returns. *)
Record Decision : Type := mkDecision {
  action : list nat;             (* the ranked indices, or the one drawn *)
  chosen : nat;                  (* the designated single action *)
  log_probs : list (list R);     (* log-probabilities, one row *)
  embedding : Tensor
}.

Definition act (ag : Agent) (g : Generator) (state : list R) (topk : Z)
    (is_rebel : bool) : result Decision * Generator :=
  let state := to (device ag) (unsqueeze0 (from_numpy state)) in
  match forward ag state with
  | Err e => (Err e, g)
  | Ok (probs, embed) =>
      let probs := cpu probs in
      let embed := cpu embed in
      if is_rebel then
        (('(values, indices) <- topk_batch (data probs) 13 ;;
          ranked <- at_first indices ;;
          a <- at_last ranked ;;
          Ok (mkDecision ranked a (log values) embed)), g)
      else if (1 <? topk)%Z then
        (('(values, indices) <- topk_batch (data probs) (Z.to_nat topk) ;;
          ranked <- at_first indices ;;
          a <- at_first ranked ;;
          Ok (mkDecision ranked a (log values) embed)), g)
      else
        let m := Categorical_init probs in
        match sample m g with
        | (Err e, g') => (Err e, g')
        | (Ok drawn, g') =>
            ((a <- item drawn ;;
              log_p <- np_array (requires_grad probs) (log_prob m drawn) ;;
              Ok (mkDecision [a] a log_p embed)), g')
        end
  end.

End Act.

(** ** Two implementations of the library calls *)

(** A selection of the [k] largest by insertion sort of the (value, index)
    pairs of a row.  [before x y] decides whether a value [x] that is being
    inserted goes in front of a value [y] already placed; which way it
    answers on equal values is what orders ties. *)
Module Select.

Section Sorting.

Variable before : R -> R -> bool.

Fixpoint insert (p : R * nat) (l : list (R * nat)) : list (R * nat) :=
  match l with
  | [] => [p]
  | q :: l' => if before (fst p) (fst q) then p :: q :: l' else q :: insert p l'
  end.

Definition sort (l : list (R * nat)) : list (R * nat) :=
  fold_right insert [] l.

Definition enumerate (xs : list R) : list (R * nat) :=
  combine xs (seq 0 (length xs)).

Definition select (xs : list R) (k : nat) : option (list R * list nat) :=
  if (length xs <? k)%nat then None
  else
    let top := firstn k (sort (enumerate xs)) in
    Some (map fst top, map snd top).

End Sorting.

(** Ties keep the order of the indices: an inserted value goes in front of
    an equal one, and rows are inserted from their last entry to their
    first. *)
Definition lower_first (x y : R) : bool :=
  if Rle_dec y x then true else false.

(** Ties reverse it: an inserted value goes behind the values equal to it. *)
Definition higher_first (x y : R) : bool :=
  if Rlt_dec y x then true else false.

(** A draw that takes the first index of positive weight, and counts the
    draws made. *)
Fixpoint first_positive (xs : list R) : nat :=
  match xs with
  | [] => 0
  | x :: xs' => if Rlt_dec 0 x then 0 else S (first_positive xs')
  end.

Definition draw (g : nat) (xs : list R) : nat * nat :=
  (first_positive xs, S g).

End Select.

(** ** [torch.topk] as the CPU kernel computes it *)

(** The kernel behind [torch.topk] on a CPU tensor (ATen, [topk_impl_loop])
    pairs every value of the row with its index and, when [k * 64] exceeds
    the length of the row, calls [std::nth_element] for position [k - 1]
    and then [std::sort] on the first [k - 1] pairs, both with the
    comparison "the first value is greater".  What follows is that code
    path with the algorithms of libstdc++ ([bits/stl_algo.h]), on rows and
    [k] for which they stay within partitioning and insertion sort:
    [kernel] answers [None] where the C++ goes on to [std::partial_sort],
    to heap selection or to the introsort loop. *)
Module Cpu.

Definition Elem : Type := (R * nat)%type.

(** [x.first > y.first] *)
Definition gt (x y : Elem) : bool :=
  if Rlt_dec (fst y) (fst x) then true else false.

Definition get (q : list Elem) (i : nat) : Elem := nth i q (0, 0%nat).

Fixpoint set (q : list Elem) (i : nat) (x : Elem) : list Elem :=
  match q, i with
  | [], _ => []
  | _ :: q', O => x :: q'
  | y :: q', S i' => y :: set q' i' x
  end.

(** [std::iter_swap] *)
Definition iter_swap (q : list Elem) (i j : nat) : list Elem :=
  set (set q i (get q j)) j (get q i).

(** [std::__unguarded_linear_insert]: [val] moves towards the front past
    every element it is greater than.  The elements already placed come
    last one first. *)
Fixpoint linear_insert (val : Elem) (placed : list Elem) : list Elem :=
  match placed with
  | [] => [val]
  | e :: rest => if gt val e then e :: linear_insert val rest else val :: placed
  end.

(** One round of [std::__insertion_sort]: an element greater than the
    first one goes to the front, any other is inserted linearly. *)
Definition insert_next (placed : list Elem) (val : Elem) : list Elem :=
  match rev placed with
  | [] => [val]
  | first :: _ => if gt val first then placed ++ [val] else linear_insert val placed
  end.

Definition insertion_sort (l : list Elem) : list Elem :=
  match l with
  | [] => []
  | x :: l' => rev (fold_left insert_next l' [x])
  end.

(** [std::__insertion_sort(first, last)] on the positions [first, last)
    of the queue. *)
Definition sort_range (q : list Elem) (first last : nat) : list Elem :=
  firstn first q
  ++ insertion_sort (firstn (last - first) (skipn first q))
  ++ skipn last q.

(** [std::__move_median_to_first] *)
Definition move_median_to_first (q : list Elem) (result a b c : nat)
    : list Elem :=
  if gt (get q a) (get q b) then
    if gt (get q b) (get q c) then iter_swap q result b
    else if gt (get q a) (get q c) then iter_swap q result c
    else iter_swap q result a
  else if gt (get q a) (get q c) then iter_swap q result a
  else if gt (get q b) (get q c) then iter_swap q result c
  else iter_swap q result b.

(** [while (comp(first, pivot)) ++first;] *)
Fixpoint scan_up (fuel : nat) (q : list Elem) (first pivot : nat) : option nat :=
  match fuel with
  | O => None
  | S fuel' =>
      if gt (get q first) (get q pivot) then scan_up fuel' q (S first) pivot
      else Some first
  end.

(** [while (comp(pivot, last)) --last;] *)
Fixpoint scan_down (fuel : nat) (q : list Elem) (last pivot : nat) : option nat :=
  match fuel with
  | O => None
  | S fuel' =>
      if gt (get q pivot) (get q last) then
        match last with
        | O => None
        | S last' => scan_down fuel' q last' pivot
        end
      else Some last
  end.

(** [std::__unguarded_partition(first, last, pivot)]; the scans stop
    within the range for the pivot is the median of three of its
    elements, and [fuel] bounds them by its length. *)
Fixpoint unguarded_partition (fuel : nat) (q : list Elem)
    (first last pivot : nat) : option (list Elem * nat) :=
  match fuel with
  | O => None
  | S fuel' =>
      match scan_up (length q) q first pivot with
      | None => None
      | Some first1 =>
          match last with
          | O => None
          | S last0 =>
              match scan_down (length q) q last0 pivot with
              | None => None
              | Some last1 =>
                  if negb (first1 <? last1)%nat then Some (q, first1)
                  else unguarded_partition fuel' (iter_swap q first1 last1)
                                           (S first1) last1 pivot
              end
          end
      end
  end.

(** [std::__unguarded_partition_pivot(first, last)] *)
Definition unguarded_partition_pivot (q : list Elem) (first last : nat)
    : option (list Elem * nat) :=
  let mid := (first + (last - first) / 2)%nat in
  let q := move_median_to_first q first (first + 1) mid (last - 1) in
  unguarded_partition (length q) q (first + 1) last first.

(** [std::__introselect(first, nth, last, depth_limit)]; at depth limit
    0 the C++ turns to heap selection ([None] here). *)
Fixpoint introselect (depth_limit : nat) (q : list Elem) (first nth last : nat)
    : option (list Elem) :=
  if (3 <? last - first)%nat then
    match depth_limit with
    | O => None
    | S depth_limit' =>
        match unguarded_partition_pivot q first last with
        | None => None
        | Some (q', cut) =>
            if (cut <=? nth)%nat then introselect depth_limit' q' cut nth last
            else introselect depth_limit' q' first nth cut
        end
    end
  else Some (sort_range q first last).

(** [std::nth_element(begin, begin + nth, end)] *)
Definition nth_element (q : list Elem) (nth : nat) : option (list Elem) :=
  introselect (Nat.log2 (length q) * 2) q 0 nth (length q).

(** [std::sort(begin, begin + n)] for at most 16 elements, where it is
    the insertion sort alone. *)
Definition sort_prefix (q : list Elem) (n : nat) : option (list Elem) :=
  if (16 <? n)%nat then None else Some (sort_range q 0 n).

(** The loop body of [topk_impl_loop] for one row (largest, sorted): the
    indices it writes out. *)
Definition kernel (xs : list R) (k : nat) : option (list nat) :=
  if (k =? 0)%nat then Some []
  else if (k * 64 <=? length xs)%nat then None
  else
    match nth_element (Select.enumerate xs) (k - 1) with
    | None => None
    | Some q =>
        match sort_prefix q (k - 1) with
        | None => None
        | Some q' => Some (map snd (firstn k q'))
        end
    end.

(** Whether [ids] is a selection of the [k] largest of [xs], in order. *)
Definition Rle_bool (x y : R) : bool := if Rle_dec x y then true else false.

Fixpoint nodupb (l : list nat) : bool :=
  match l with
  | [] => true
  | i :: l' => negb (existsb (Nat.eqb i) l') && nodupb l'
  end.

Fixpoint sortedb (vs : list R) : bool :=
  match vs with
  | [] => true
  | v :: vs' => forallb (fun w => Rle_bool w v) vs' && sortedb vs'
  end.

Definition selects (xs : list R) (k : nat) (ids : list nat) : bool :=
  (length ids =? k)%nat
  && nodupb ids
  && forallb (fun i => (i <? length xs)%nat) ids
  && sortedb (map (fun i => nth i xs 0) ids)
  && forallb (fun j => existsb (Nat.eqb j) ids
                       || forallb (fun i => Rle_bool (nth j xs 0) (nth i xs 0)) ids)
             (seq 0 (length xs)).

(** [torch.topk] on one row of a CPU tensor: what the kernel writes out.
    Where [kernel] gives no answer the selection is left to
    [Select.select]; so it would be if the kernel's answer were no
    selection of the [k] largest, which the C++ excludes. *)
Definition topk (xs : list R) (k : nat) : option (list R * list nat) :=
  if (length xs <? k)%nat then None
  else
    match kernel xs k with
    | Some ids =>
        if selects xs k ids then Some (map (fun i => nth i xs 0) ids, ids)
        else Select.select Select.lower_first xs k
    | None => Select.select Select.lower_first xs k
    end.

End Cpu.

(** ** Vocabulary of the claims about [act] *)

(** The number of actions a call asks for: 13 in rebel mode, [k] in top-k
    mode, the single draw otherwise. *)
Definition requested (k : Z) (is_rebel : bool) : nat :=
  if is_rebel then 13%nat
  else if (1 <? k)%Z then Z.to_nat k
  else 1%nat.

(** Whether a call takes the sampling branch. *)
Definition stochastic (k : Z) (is_rebel : bool) : bool :=
  negb is_rebel && negb (1 <? k)%Z.

(** A ranking puts, among positions of equal probability, the lower index
    first. *)
Definition lower_index_first (d : list R) (ranked : list nat) : Prop :=
  forall p q i j,
    (p < q)%nat ->
    nth_error ranked p = Some i -> nth_error ranked q = Some j ->
    nth i d 0 = nth j d 0 -> (i < j)%nat.

(** Parameters that produce the distribution [ps] on every state: the
    weights are zero and the biases of the output layer are the
    logarithms of the probabilities. *)
Definition fixed_policy (ps : list R) : Params :=
  {| fc1_weight := fun _ _ => 0;
     fc1_bias := fun _ => 0;
     fc2_weight := fun _ _ => 0;
     fc2_bias := fun j => ln (nth j ps 1) |}.

(** Thirteen pairwise distinct probabilities. *)
Definition ladder13 : list R :=
  [1/91; 2/91; 3/91; 4/91; 5/91; 6/91; 7/91; 8/91; 9/91; 10/91; 11/91;
   12/91; 13/91].

(** ** Example configurations *)

Module Example.

(** Every parameter zero: all actions equally likely. *)
Definition zero_params : Params :=
  {| fc1_weight := fun _ _ => 0;
     fc1_bias := fun _ => 0;
     fc2_weight := fun _ _ => 0;
     fc2_bias := fun _ => 0 |}.

(** [s_size=4, a_size=5, h_size=3] with parameters that produce the
    distribution [0.1, 0.3, 0.05, 0.45, 0.1] on every state: the output
    layer ignores the hidden units and its biases are the logarithms of
    the probabilities. *)
Definition scenario_probs : list R := [1/10; 3/10; 5/100; 45/100; 1/10].

Definition scenario_params : Params :=
  {| fc1_weight := fun _ _ => 0;
     fc1_bias := fun _ => 0;
     fc2_weight := fun _ _ => 0;
     fc2_bias := fun j => ln (nth j scenario_probs 1) |}.

Definition scenario_agent : Agent := Agent_init 4 5 CPU 3 scenario_params.

End Example.

(** ** The vitaboard views [/groups] and [/stats] *)

Module Vitaboard.

Open Scope string_scope.

Section Views.

(** What [graph_gen.tsne] and [graph_gen.get_life_stats] compute: the
    module is imported by [app.py] and is not part of the code at hand. *)
Variable Coord : Type.
Variable Stat : Type.

(** A value a helper hands back: the sentinel [-1], or data (which does
    not compare equal to [-1]). *)
Inductive Value (A : Type) : Type :=
| MinusOne
| Data (a : A).

(** A call of a helper returns, or raises. *)
Inductive Call (A : Type) : Type :=
| Returned (a : A)
| Raised.

(** The environment of a request: [os.path.exists] on the file system and
    the two helpers. *)
Record Env : Type := mkEnv {
  path_exists : string -> bool;
  tsne : string -> Call (Value Coord);
  get_life_stats : string -> Call (Value Stat * Value Stat * Value Stat)
}.

Record Request : Type := mkRequest {
  method : string;
  form : list (string * string)
}.

Inductive JValue : Type :=
| JString (s : string)
| JNumber (z : Z)
| JCoord (c : Coord)
| JStat (v : Stat).

Definition stat_json (v : Value Stat) : JValue :=
  match v with
  | MinusOne _ => JNumber (-1)
  | Data _ x => JStat x
  end.

(** What becomes of a request: the [jsonify]-ed object the view returns,
    or the view returns [None], or [request.form[...]] finds no such key,
    or an exception of a helper leaves the view. *)
Inductive Reply : Type :=
| Jsonify (body : list (string * JValue))
| ReturnsNone
| BadRequestKey
| Propagated.

Fixpoint lookup (key : string) (fields : list (string * string)) : option string :=
  match fields with
  | [] => None
  | (k, v) :: fields' => if k =? key then Some v else lookup key fields'
  end.

Fixpoint endswith_sep (s : string) : bool :=
  match s with
  | EmptyString => false
  | String c EmptyString => Ascii.eqb c "/"%char
  | String _ s' => endswith_sep s'
  end.

(** [os.path.join(a, b)] for a [b] that is not absolute *)
Definition join (a b : string) : string :=
  if (a =? "") || endswith_sep a then a ++ b else a ++ "/" ++ b.

Definition error (text : string) : Reply :=
  Jsonify [("title", JString "Error"); ("text", JString text);
           ("icon", JString "error")].

(** [groups()] *)
Definition groups (env : Env) (request : Request) : Reply :=
  if method request =? "POST" then
    match lookup "location" (form request) with
    | None => BadRequestKey
    | Some location =>
        if negb (path_exists env location) then
          error ("The location " ++ location ++ " does not exist")
        else if negb (path_exists env (join location "Embeddings")) then
          error ("The location " ++ location ++ " does not have any embeddings")
        else
          match tsne env location with
          | Raised _ => Propagated
          | Returned _ (MinusOne _) =>
              error ("The location " ++ location ++ " does not have any embeddings")
          | Returned _ (Data _ coord) =>
              Jsonify [("title", JString "Success");
                       ("text", JString "Groups generated successfully");
                       ("icon", JString "success"); ("coord", JCoord coord)]
          end
    end
  else ReturnsNone.

(** [stats()] *)
Definition stats (env : Env) (request : Request) : Reply :=
  if method request =? "POST" then
    match lookup "location" (form request) with
    | None => BadRequestKey
    | Some location =>
        if negb (path_exists env location) then
          error ("The location " ++ location ++ " does not exist")
        else
          match get_life_stats env location with
          | Raised _ => Propagated
          | Returned _ (MinusOne _, MinusOne _, MinusOne _) =>
              error ("The location " ++ location ++ " does not have any log files")
          | Returned _ (mean, variance, qof) =>
              Jsonify [("title", JString "Success");
                       ("text", JString "Stats generated successfully");
                       ("icon", JString "success");
                       ("mean", stat_json mean);
                       ("variance", stat_json variance);
                       ("qof", stat_json qof)]
          end
    end
  else ReturnsNone.

(** A structured error result: title [Error], a message, icon [error]. *)
Definition is_error (r : Reply) : Prop :=
  exists text, r = error text.

End Views.

Arguments MinusOne {A}.
Arguments Data {A} a.
Arguments Returned {A} a.
Arguments Raised {A}.
Arguments path_exists {Coord Stat} e _.
Arguments tsne {Coord Stat} e _.
Arguments get_life_stats {Coord Stat} e _.
Arguments error {Coord Stat} text.
Arguments groups {Coord Stat} env request.
Arguments stats {Coord Stat} env request.
Arguments is_error {Coord Stat} r.

End Vitaboard.

(** ** The vitaboard view [/] *)

(** [index()] stages two files in the working directory, runs the
    visualizer on them and removes them: the file system is a state the
    view transforms. *)
Module VitaboardIndex.

Open Scope string_scope.

(** What a path names. *)
Inductive Node : Type :=
| File (contents : string)
| Dir.

(** The file system: what each path names, if anything.  Paths are
    relative to the working directory and compared once a leading [./]
    is dropped ([cwd_path]); any path that names no directory can be
    written. *)
Definition FileSystem : Type := string -> option Node.

Definition cwd_path (p : string) : string :=
  match p with
  | String "."%char (String "/"%char rest) => rest
  | _ => p
  end.

Inductive Exception : Type :=
| IsADirectoryError
| FileNotFoundError
| AttributeError.

(** [os.path.exists(p)] *)
Definition path_exists (fs : FileSystem) (p : string) : bool :=
  match fs (cwd_path p) with
  | Some _ => true
  | None => false
  end.

Definition update (fs : FileSystem) (p : string) (n : option Node) : FileSystem :=
  fun q => if q =? p then n else fs q.

(** [with open(p, 'w') as file: file.write(...)]: the file is created or
    replaced; a directory of that name makes [open] raise. *)
Definition write_file (fs : FileSystem) (p : string) (contents : string)
    : Exception + FileSystem :=
  match fs (cwd_path p) with
  | Some Dir => inl IsADirectoryError
  | _ => inr (update fs (cwd_path p) (Some (File contents)))
  end.

(** [os.remove(p)] *)
Definition remove (fs : FileSystem) (p : string) : Exception + FileSystem :=
  match fs (cwd_path p) with
  | None => inl FileNotFoundError
  | Some Dir => inl IsADirectoryError
  | Some (File _) => inr (update fs (cwd_path p) None)
  end.

(** [needle in hay] *)
Fixpoint contains (needle hay : string) : bool :=
  prefix needle hay ||
  match hay with
  | EmptyString => false
  | String _ hay' => contains needle hay'
  end.

(** The line feed character, and [s + '\n']. *)
Definition newline : string := String (Ascii.ascii_of_nat 10) EmptyString.

(** What [pkgutil.get_data] answers: [None] (the package is not found, or
    its loader hands out no data), an exception of the loader (the file is
    not there), or the bytes of the file, read here as the text they
    encode. *)
Inductive PackageData : Type :=
| NoData
| DataError (e : Exception)
| Bytes (contents : string).

(** What the view does not define itself: the data files of the package
    and what a shell command does to the file system ([os.system]; its
    exit status is not looked at). *)
Record Env : Type := mkEnv {
  package_data : string -> PackageData;
  system : string -> FileSystem -> FileSystem
}.

Inductive Reply : Type :=
| RenderTemplate (name : string)
| Jsonify (body : list (string * string))
| BadRequestKey
| Raised (e : Exception)
| ReturnsNone.

Definition error (text : string) : Reply :=
  Jsonify [("title", "Error"); ("text", text); ("icon", "error")].

Definition success : Reply :=
  Jsonify [("title", "Success"); ("text", "Visualizer ran successfully");
           ("icon", "success")].

(** [index()] *)
Definition index (env : Env) (fs : FileSystem) (request : Vitaboard.Request)
    : Reply * FileSystem :=
  if Vitaboard.method request =? "GET" then
    (RenderTemplate "index.html", fs)
  else if Vitaboard.method request =? "POST" then
    match Vitaboard.lookup "file_location" (Vitaboard.form request) with
    | None => (BadRequestKey, fs)
    | Some file_location =>
    match Vitaboard.lookup "speed" (Vitaboard.form request) with
    | None => (BadRequestKey, fs)
    | Some speed =>
        if negb (path_exists fs file_location) then
          (error ("The location " ++ file_location ++ " does not exist"), fs)
        else if negb (contains ".npy" file_location) then
          (error "You need to pass a npy file", fs)
        else
          match write_file fs "pass_params.txt"
                           ((file_location ++ newline) ++ (speed ++ newline)) with
          | inl e => (Raised e, fs)
          | inr fs1 =>
          match package_data env "visualizer.py" with
          | NoData => (Raised AttributeError, fs1)
          | DataError e => (Raised e, fs1)
          | Bytes visualizer_contents =>
          match write_file fs1 "./visualizer.py" visualizer_contents with
          | inl e => (Raised e, fs1)
          | inr fs2 =>
              let fs3 := system env "python visualizer.py" fs2 in
              match remove fs3 "pass_params.txt" with
              | inl e => (Raised e, fs3)
              | inr fs4 =>
              match remove fs4 "visualizer.py" with
              | inl e => (Raised e, fs4)
              | inr fs5 => (success, fs5)
              end
              end
          end
          end
          end
    end
    end
  else (ReturnsNone, fs).

(** The file system the visualizer is started on: the two staged files
    beside everything that was there. *)
Definition staged (fs : FileSystem) (file_location speed contents : string)
    : FileSystem :=
  update (update fs "pass_params.txt"
                 (Some (File ((file_location ++ newline) ++ (speed ++ newline)))))
         "visualizer.py" (Some (File contents)).

End VitaboardIndex.

(** ** The implementations meet the library contract *)

Module SelectFacts.

Import Select.

Definition ge_fst (p q : R * nat) : Prop := fst p >= fst q.

Section Sorting.

Variable before : R -> R -> bool.
Hypothesis before_true : forall x y, before x y = true -> x >= y.
Hypothesis before_false : forall x y, before x y = false -> y >= x.

Lemma insert_perm p l : Permutation (insert before p l) (p :: l).
Proof.
  induction l as [|q l IH]; simpl.
  - apply Permutation_refl.
  - destruct (before (fst p) (fst q)).
    + apply Permutation_refl.
    + apply perm_trans with (q :: p :: l).
      * now apply perm_skip.
      * apply perm_swap.
Qed.

Lemma sort_perm l : Permutation (sort before l) l.
Proof.
  induction l as [|p l IH]; simpl.
  - apply perm_nil.
  - apply perm_trans with (p :: sort before l).
    + apply insert_perm.
    + now apply perm_skip.
Qed.

Lemma insert_sorted p l :
  StronglySorted ge_fst l -> StronglySorted ge_fst (insert before p l).
Proof.
  induction l as [|q l IH]; simpl; intros Hs.
  - constructor; [constructor | constructor].
  - apply StronglySorted_inv in Hs. destruct Hs as [Hl Hq].
    destruct (before (fst p) (fst q)) eqn:E.
    + constructor.
      * now constructor.
      * constructor.
        -- now apply before_true.
        -- apply Forall_forall. intros z Hz.
           rewrite Forall_forall in Hq. specialize (Hq z Hz).
           apply before_true in E. unfold ge_fst in *. lra.
    + constructor.
      * now apply IH.
      * apply Forall_forall. intros z Hz.
        apply (Permutation_in _ (insert_perm p l)) in Hz.
        destruct Hz as [<- | Hz].
        -- now apply before_false.
        -- rewrite Forall_forall in Hq. now apply Hq.
Qed.

Lemma sort_sorted l : StronglySorted ge_fst (sort before l).
Proof.
  induction l as [|p l IH]; simpl.
  - constructor.
  - now apply insert_sorted.
Qed.

Lemma combine_seq_in (xs : list R) s v i :
  In (v, i) (combine xs (seq s (length xs))) ->
  (s <= i < s + length xs)%nat /\ v = nth (i - s) xs 0.
Proof.
  revert s. induction xs as [|x xs IH]; simpl; intros s H.
  - contradiction.
  - destruct H as [H | H].
    + injection H as -> ->. rewrite Nat.sub_diag. split; [lia | reflexivity].
    + apply IH in H. destruct H as [Hr ->]. split; [lia |].
      replace (i - s)%nat with (S (i - S s)) by lia. reflexivity.
Qed.

Lemma combine_seq_complete (xs : list R) s i :
  (i < length xs)%nat -> In (nth i xs 0, (s + i)%nat) (combine xs (seq s (length xs))).
Proof.
  revert s i. induction xs as [|x xs IH]; simpl; intros s i H.
  - lia.
  - destruct i as [|i].
    + left. now rewrite Nat.add_0_r.
    + right. replace (s + S i)%nat with (S s + i)%nat by lia. apply IH. lia.
Qed.

Lemma combine_seq_snd (xs : list R) s :
  map snd (combine xs (seq s (length xs))) = seq s (length xs).
Proof.
  revert s. induction xs as [|x xs IH]; simpl; intros s.
  - reflexivity.
  - now rewrite IH.
Qed.

Lemma enumerate_in xs v i :
  In (v, i) (enumerate xs) -> (i < length xs)%nat /\ v = nth i xs 0.
Proof.
  intros H. apply combine_seq_in in H. rewrite Nat.sub_0_r in H.
  destruct H as [Hr Hv]. split; [lia | exact Hv].
Qed.

Lemma enumerate_complete xs i :
  (i < length xs)%nat -> In (nth i xs 0, i) (enumerate xs).
Proof.
  intros H. apply (combine_seq_complete xs 0 i H).
Qed.

Lemma enumerate_length xs : length (enumerate xs) = length xs.
Proof.
  unfold enumerate. rewrite length_combine, length_seq. apply Nat.min_id.
Qed.

Lemma sorted_app_inv {A : Type} (Rel : A -> A -> Prop) (l1 l2 : list A) :
  StronglySorted Rel (l1 ++ l2) ->
  StronglySorted Rel l1 /\ Forall (fun a => Forall (Rel a) l2) l1.
Proof.
  induction l1 as [|a l1 IH]; simpl; intros H.
  - split; constructor.
  - apply StronglySorted_inv in H. destruct H as [Hs Ha].
    apply IH in Hs. destruct Hs as [Hs1 Hs2].
    apply Forall_app in Ha. destruct Ha as [Ha1 Ha2].
    split; constructor; assumption.
Qed.

Lemma sorted_map_fst l :
  StronglySorted ge_fst l -> StronglySorted Rge (map fst l).
Proof.
  induction 1 as [|p l Hs IH Hp]; simpl; constructor.
  - exact IH.
  - apply Forall_map. exact Hp.
Qed.

Lemma select_out_of_range xs k :
  (length xs < k)%nat -> select before xs k = None.
Proof.
  intros H. unfold select.
  apply Nat.ltb_lt in H. now rewrite H.
Qed.

Lemma select_spec xs k :
  (k <= length xs)%nat ->
  exists vs ids, select before xs k = Some (vs, ids) /\ is_topk xs k vs ids.
Proof.
  intros Hk. unfold select.
  assert (Hlt : (length xs <? k)%nat = false) by (apply Nat.ltb_ge; exact Hk).
  rewrite Hlt.
  set (sorted := sort before (enumerate xs)).
  assert (Hperm : Permutation sorted (enumerate xs)) by apply sort_perm.
  assert (Hsplit : firstn k sorted ++ skipn k sorted = sorted)
    by apply firstn_skipn.
  assert (Hin : forall p, In p (firstn k sorted) -> In p (enumerate xs)).
  { intros p Hp. apply (Permutation_in _ Hperm).
    rewrite <- Hsplit. apply in_or_app. now left. }
  assert (Hnd : NoDup (map snd sorted)).
  { apply Permutation_NoDup with (l := seq 0 (length xs)).
    - unfold enumerate in Hperm.
      rewrite <- (combine_seq_snd xs 0).
      apply Permutation_sym. now apply Permutation_map.
    - apply seq_NoDup. }
  assert (Hss : StronglySorted ge_fst (firstn k sorted ++ skipn k sorted)).
  { rewrite Hsplit. apply sort_sorted. }
  apply sorted_app_inv in Hss. destruct Hss as [Htop Hrest].
  eexists. eexists. split; [reflexivity |].
  constructor.
  - rewrite length_map, length_firstn.
    rewrite (Permutation_length Hperm), enumerate_length. lia.
  - rewrite <- Hsplit, map_app in Hnd.
    now apply NoDup_app_remove_r in Hnd.
  - apply Forall_forall. intros i Hi.
    apply in_map_iff in Hi. destruct Hi as [[v j] [Hj Hp]]. simpl in Hj. subst j.
    apply Hin, enumerate_in in Hp. tauto.
  - rewrite map_map. apply map_ext_in. intros [v i] Hp. simpl.
    apply Hin, enumerate_in in Hp. tauto.
  - now apply sorted_map_fst.
  - intros i Hi Hnot.
    apply Forall_map.
    assert (Hp : In (nth i xs 0, i) (skipn k sorted)).
    { pose proof (enumerate_complete xs i Hi) as Hc.
      apply (Permutation_in _ (Permutation_sym Hperm)) in Hc.
      rewrite <- Hsplit in Hc. apply in_app_or in Hc.
      destruct Hc as [Hc | Hc]; [| exact Hc].
      exfalso. apply Hnot. apply in_map_iff.
      exists (nth i xs 0, i). split; [reflexivity | exact Hc]. }
    apply Forall_forall. intros q Hq.
    rewrite Forall_forall in Hrest. specialize (Hrest q Hq).
    rewrite Forall_forall in Hrest. specialize (Hrest _ Hp).
    unfold ge_fst in Hrest. simpl in Hrest. lra.
Qed.

End Sorting.

Lemma lower_first_true x y : lower_first x y = true -> x >= y.
Proof.
  unfold lower_first. destruct (Rle_dec y x); [lra | discriminate].
Qed.

Lemma lower_first_false x y : lower_first x y = false -> y >= x.
Proof.
  unfold lower_first. destruct (Rle_dec y x); [discriminate | lra].
Qed.

Lemma higher_first_true x y : higher_first x y = true -> x >= y.
Proof.
  unfold higher_first. destruct (Rlt_dec y x); [lra | discriminate].
Qed.

Lemma higher_first_false x y : higher_first x y = false -> y >= x.
Proof.
  unfold higher_first. destruct (Rlt_dec y x); [discriminate | lra].
Qed.

Lemma sum_nonneg xs : Forall (fun p => 0 <= p) xs -> 0 <= sum xs.
Proof.
  induction 1 as [|x xs Hx _ IH]; simpl; lra.
Qed.

Lemma first_positive_spec xs :
  Forall (fun p => 0 <= p) xs -> 0 < sum xs ->
  (first_positive xs < length xs)%nat /\ 0 < nth (first_positive xs) xs 0.
Proof.
  induction 1 as [|x xs Hx Hxs IH]; simpl; intros Hsum.
  - lra.
  - destruct (Rlt_dec 0 x) as [Hp | Hn].
    + split; [lia | exact Hp].
    + assert (Hs : 0 < sum xs) by lra.
      destruct (IH Hs) as [Hl Hv]. split; [lia | exact Hv].
Qed.

End SelectFacts.

(** A library whose [topk] ranks equal values by increasing index. *)
Definition LowerFirstTorch : Torch :=
  {| Generator := nat;
     torch_topk := Select.select Select.lower_first;
     torch_multinomial := Select.draw;
     torch_topk_out_of_range := SelectFacts.select_out_of_range Select.lower_first;
     torch_topk_spec :=
       SelectFacts.select_spec Select.lower_first
         SelectFacts.lower_first_true SelectFacts.lower_first_false;
     torch_multinomial_spec := fun _ xs => SelectFacts.first_positive_spec xs |}.

(** A library whose [topk] ranks equal values by decreasing index. *)
Definition HigherFirstTorch : Torch :=
  {| Generator := nat;
     torch_topk := Select.select Select.higher_first;
     torch_multinomial := Select.draw;
     torch_topk_out_of_range := SelectFacts.select_out_of_range Select.higher_first;
     torch_topk_spec :=
       SelectFacts.select_spec Select.higher_first
         SelectFacts.higher_first_true SelectFacts.higher_first_false;
     torch_multinomial_spec := fun _ xs => SelectFacts.first_positive_spec xs |}.

(** ** The CPU kernel *)

Module CpuFacts.

Import Cpu.

Lemma gt_true (x y : Elem) : fst y < fst x -> gt x y = true.
Proof. intros H. unfold gt. destruct (Rlt_dec (fst y) (fst x)); [reflexivity | contradiction]. Qed.

Lemma gt_false (x y : Elem) : ~ fst y < fst x -> gt x y = false.
Proof. intros H. unfold gt. destruct (Rlt_dec (fst y) (fst x)); [contradiction | reflexivity]. Qed.

Lemma Rle_bool_true (x y : R) : x <= y -> Rle_bool x y = true.
Proof. intros H. unfold Rle_bool. destruct (Rle_dec x y); [reflexivity | contradiction]. Qed.

Lemma Rle_bool_sound (x y : R) : Rle_bool x y = true -> x <= y.
Proof. unfold Rle_bool. destruct (Rle_dec x y); [trivial | discriminate]. Qed.

Lemma nodupb_sound (l : list nat) : nodupb l = true -> NoDup l.
Proof.
  induction l as [|i l IH]; simpl; intros H; constructor.
  - apply andb_prop in H. destruct H as [H _].
    intros Hin. apply negb_true_iff in H.
    assert (Hex : existsb (Nat.eqb i) l = true).
    { apply existsb_exists. exists i. split; [exact Hin | apply Nat.eqb_refl]. }
    congruence.
  - apply andb_prop in H. now apply IH.
Qed.

Lemma sortedb_sound (vs : list R) : sortedb vs = true -> StronglySorted Rge vs.
Proof.
  induction vs as [|v vs IH]; simpl; intros H; constructor.
  - apply andb_prop in H. now apply IH.
  - apply andb_prop in H. destruct H as [H _].
    rewrite forallb_forall in H. apply Forall_forall. intros w Hw.
    apply Rle_ge, Rle_bool_sound, H, Hw.
Qed.

(** A checked answer is a selection of the [k] largest. *)
Lemma selects_sound (xs : list R) (k : nat) (ids : list nat) :
  selects xs k ids = true ->
  is_topk xs k (map (fun i => nth i xs 0) ids) ids.
Proof.
  unfold selects. intros H.
  apply andb_prop in H. destruct H as [H H5].
  apply andb_prop in H. destruct H as [H H4].
  apply andb_prop in H. destruct H as [H H3].
  apply andb_prop in H. destruct H as [H1 H2].
  constructor.
  - now apply Nat.eqb_eq.
  - now apply nodupb_sound.
  - apply Forall_forall. intros i Hi.
    rewrite forallb_forall in H3. now apply Nat.ltb_lt, H3.
  - reflexivity.
  - now apply sortedb_sound.
  - intros j Hj Hout. apply Forall_map, Forall_forall. intros i Hi.
    rewrite forallb_forall in H5.
    specialize (H5 j (proj2 (in_seq _ _ _) (conj (Nat.le_0_l j) Hj))).
    apply orb_prop in H5. destruct H5 as [H5 | H5].
    + exfalso. apply Hout. apply existsb_exists in H5.
      destruct H5 as (x & Hx & E). apply Nat.eqb_eq in E. now subst x.
    + rewrite forallb_forall in H5. now apply Rle_bool_sound, H5.
Qed.

Lemma topk_out_of_range xs k : (length xs < k)%nat -> topk xs k = None.
Proof.
  intros H. unfold topk. apply Nat.ltb_lt in H. now rewrite H.
Qed.

Lemma topk_spec xs k :
  (k <= length xs)%nat ->
  exists vs ids, topk xs k = Some (vs, ids) /\ is_topk xs k vs ids.
Proof.
  intros Hk. unfold topk.
  assert (Hlt : (length xs <? k)%nat = false) by (apply Nat.ltb_ge; exact Hk).
  rewrite Hlt.
  pose proof (SelectFacts.select_spec Select.lower_first
                SelectFacts.lower_first_true SelectFacts.lower_first_false
                xs k Hk) as Hsel.
  destruct (kernel xs k) as [ids |]; [| exact Hsel].
  destruct (selects xs k ids) eqn:Hv; [| exact Hsel].
  eexists. eexists. split; [reflexivity |]. now apply selects_sound.
Qed.

(** Resolves the comparisons of a run of the kernel on given numbers. *)
Ltac run_kernel :=
  repeat (cbn -[gt Rle_bool Rdiv Rmult Rplus Rinv IZR];
          match goal with
          | |- context [gt ?a ?b] =>
              first [ rewrite (gt_true a b) by (cbn [fst]; lra)
                    | rewrite (gt_false a b) by (cbn [fst]; lra) ]
          | |- context [Rle_bool ?a ?b] =>
              rewrite (Rle_bool_true a b) by lra
          end);
  cbn -[Rdiv Rmult Rplus Rinv IZR].

(** Two equal values: the kernel leaves them in the order of their
    indices. *)
Lemma topk_pair (p : R) : topk [p; p] 2 = Some ([p; p], [0; 1]%nat).
Proof.
  unfold topk, kernel, nth_element, sort_prefix, selects, Select.enumerate.
  cbn -[gt Rle_bool].
  rewrite !(gt_false (p, 1%nat) (p, 0%nat)) by (cbn [fst]; lra).
  cbn -[gt Rle_bool].
  rewrite !Rle_bool_true by lra. reflexivity.
Qed.

(** The scenario's distribution, all five ranked: the two actions of
    probability 0.1 come out with index 4 before index 0. *)
Lemma topk_scenario_5 :
  topk Example.scenario_probs 5
  = Some ([45/100; 3/10; 1/10; 1/10; 5/100], [3; 1; 4; 0; 2]%nat).
Proof.
  unfold topk, kernel, nth_element, sort_prefix, selects, Select.enumerate,
    Example.scenario_probs.
  change (Nat.log2 (length [1/10; 3/10; 5/100; 45/100; 1/10]) * 2)%nat with 4%nat.
  unfold introselect, unguarded_partition_pivot, move_median_to_first.
  run_kernel. reflexivity.
Qed.

End CpuFacts.

(** The library of a CPU tensor. *)
Definition CpuTorch : Torch :=
  {| Generator := nat;
     torch_topk := Cpu.topk;
     torch_multinomial := Select.draw;
     torch_topk_out_of_range := CpuFacts.topk_out_of_range;
     torch_topk_spec := CpuFacts.topk_spec;
     torch_multinomial_spec := fun _ xs => SelectFacts.first_positive_spec xs |}.

(** ** The policy network: [forward] *)

Module ForwardFacts.

Lemma sum_exp_pos (row : list R) : row <> [] -> 0 < sum (map exp row).
Proof.
  destruct row as [|x row]; [congruence | intros _].
  simpl. pose proof (exp_pos x) as Hx.
  assert (H : 0 <= sum (map exp row)).
  { induction row as [|y row IH]; simpl; [lra |].
    pose proof (exp_pos y). lra. }
  lra.
Qed.

Lemma sum_map_div (f : R -> R) (z : R) (row : list R) :
  sum (map (fun v => f v / z) row) = sum (map f row) / z.
Proof.
  induction row as [|x row IH]; simpl.
  - unfold Rdiv. now rewrite Rmult_0_l.
  - rewrite IH. unfold Rdiv. ring.
Qed.

Lemma softmax_row_length row : length (softmax_row row) = length row.
Proof. unfold softmax_row. apply length_map. Qed.

Lemma softmax_row_pos row : Forall (fun p => 0 < p) (softmax_row row).
Proof.
  unfold softmax_row. apply Forall_map, Forall_forall. intros v Hv.
  assert (Hz : 0 < sum (map exp row)).
  { apply sum_exp_pos. intros ->. contradiction. }
  apply Rdiv_lt_0_compat; [apply exp_pos | exact Hz].
Qed.

Lemma softmax_row_sum row : row <> [] -> sum (softmax_row row) = 1.
Proof.
  intros Hne. unfold softmax_row. rewrite sum_map_div.
  pose proof (sum_exp_pos row Hne). field. lra.
Qed.

(** The hidden layer's values for a state, before the nonlinearity. *)
Lemma linear_row (l : Linear) (row : list R) (rg : bool) :
  length row = in_features l ->
  linear l (mkTensor [row] rg)
  = Ok (mkTensor [map (fun j => dot (weight l j) row + bias l j)
                      (seq 0 (out_features l))] true).
Proof.
  intros H. unfold linear. simpl.
  apply Nat.eqb_eq in H. now rewrite H.
Qed.

Lemma linear_row_mismatch (l : Linear) (row : list R) (rg : bool) :
  length row <> in_features l ->
  linear l (mkTensor [row] rg) = Err ShapeError.
Proof.
  intros H. unfold linear. simpl.
  apply Nat.eqb_neq in H. now rewrite H.
Qed.

Lemma linear_row_length (l : Linear) (x y : Tensor) :
  linear l x = Ok y ->
  Forall (fun row => length row = out_features l) (data y).
Proof.
  unfold linear. destruct (forallb _ _); [| discriminate].
  intros [= <-]. simpl. apply Forall_map, Forall_forall. intros row _.
  now rewrite length_map, length_seq.
Qed.

(** What [forward] returns on a single state of the right length: the
    distribution over the actions, and the values of the hidden layer
    before the nonlinearity. *)
Lemma forward_value s_size a_size dev h_size theta (state : list R) :
  length state = s_size ->
  let pre := map (fun j => dot (fc1_weight theta j) state + fc1_bias theta j)
                 (seq 0 h_size) in
  let logit := map (fun j => dot (fc2_weight theta j) (map (Rmax 0) pre)
                             + fc2_bias theta j) (seq 0 a_size) in
  forward (Agent_init s_size a_size dev h_size theta)
          (unsqueeze0 (from_numpy state))
  = Ok (mkTensor [softmax_row logit] true, mkTensor [pre] false).
Proof.
  intros Hlen pre logit.
  assert (Hpre : length pre = h_size)
    by (unfold pre; now rewrite length_map, length_seq).
  unfold forward, unsqueeze0, from_numpy.
  rewrite linear_row by exact Hlen. simpl.
  unfold relu, clone. simpl.
  rewrite linear_row by (simpl; now rewrite length_map).
  reflexivity.
Qed.

Lemma forward_row s_size a_size dev h_size theta (state : list R) :
  length state = s_size ->
  exists pre logit,
    linear (fc1 (Agent_init s_size a_size dev h_size theta))
           (unsqueeze0 (from_numpy state)) = Ok (mkTensor [pre] true) /\
    length pre = h_size /\ length logit = a_size /\
    forward (Agent_init s_size a_size dev h_size theta)
            (unsqueeze0 (from_numpy state))
    = Ok (mkTensor [softmax_row logit] true, mkTensor [pre] false).
Proof.
  intros Hlen.
  pose proof (forward_value s_size a_size dev h_size theta state Hlen) as Hfw.
  cbv zeta in Hfw.
  eexists. eexists.
  split; [unfold unsqueeze0, from_numpy; now apply linear_row |].
  split; [| split; [| exact Hfw]]; now rewrite length_map, length_seq.
Qed.

Lemma forward_mismatch s_size a_size dev h_size theta (state : list R) :
  length state <> s_size ->
  forward (Agent_init s_size a_size dev h_size theta)
          (unsqueeze0 (from_numpy state)) = Err ShapeError.
Proof.
  intros Hlen. unfold forward, unsqueeze0, from_numpy.
  now rewrite linear_row_mismatch.
Qed.

End ForwardFacts.

(** ** Action selection: [act] *)

Module ActFacts.

Import ForwardFacts.

Lemma at_first_nth {A : Type} (l : list A) (a : A) :
  at_first l = Ok a -> nth_error l 0 = Some a.
Proof.
  destruct l as [|x l]; simpl; [discriminate | now intros [= ->]].
Qed.

Lemma at_last_nth {A : Type} (l : list A) (a : A) :
  at_last l = Ok a -> nth_error l (length l - 1) = Some a.
Proof.
  unfold at_last. destruct (rev l) as [|x t] eqn:E; simpl; [discriminate |].
  intros [= ->].
  assert (Hl : l = rev t ++ [a]).
  { rewrite <- (rev_involutive l), E. reflexivity. }
  rewrite Hl, length_app, length_rev. simpl.
  rewrite nth_error_app2 by (rewrite length_rev; lia).
  rewrite length_rev. replace (length t + 1 - 1 - length t)%nat with 0%nat by lia.
  reflexivity.
Qed.

Lemma at_first_some {A : Type} (l : list A) :
  (0 < length l)%nat -> exists a, at_first l = Ok a.
Proof.
  destruct l as [|x l]; simpl; [lia | intros _; now exists x].
Qed.

Lemma at_last_some {A : Type} (l : list A) :
  (0 < length l)%nat -> exists a, at_last l = Ok a.
Proof.
  intros H. unfold at_last. apply at_first_some. now rewrite length_rev.
Qed.

Section WithTorch.

Context {T : Torch}.

Lemma topk_row (row : list R) (k : nat) :
  topk_batch [row] k =
  match torch_topk row k with
  | None => Err InvalidConfigError
  | Some (vs, ids) => Ok ([vs], [ids])
  end.
Proof.
  simpl. destruct (torch_topk row k) as [[vs ids]|]; reflexivity.
Qed.

(** The rebel branch and the top-k branch, on a state of the right length
    and a [k] within the number of actions: the library's selection on the
    distribution of [forward] is what [act] returns. *)
Lemma act_selects s_size a_size dev h_size theta g state (k : Z)
    (is_rebel : bool) (n : nat) :
  length state = s_size ->
  n = (if is_rebel then 13%nat else Z.to_nat k) ->
  (is_rebel = true \/ (1 < k)%Z) ->
  (0 < n <= a_size)%nat ->
  exists d embed vs ids a,
    forward (Agent_init s_size a_size dev h_size theta)
            (unsqueeze0 (from_numpy state))
    = Ok (mkTensor [d] true, embed) /\
    length d = a_size /\
    torch_topk d n = Some (vs, ids) /\
    is_topk d n vs ids /\
    (if is_rebel then at_last ids else at_first ids) = Ok a /\
    act (Agent_init s_size a_size dev h_size theta) g state k is_rebel
    = (Ok (mkDecision ids a [map ln vs] embed), g).
Proof.
  intros Hlen Hn Hmode Hk.
  destruct (forward_row s_size a_size dev h_size theta state Hlen)
    as (pre & logit & _ & _ & Hlogit & Hfw).
  set (d := softmax_row logit) in *.
  assert (Hd : length d = a_size)
    by (unfold d; now rewrite softmax_row_length).
  destruct (torch_topk_spec d n) as (vs & ids & Htk & Hspec); [lia |].
  assert (Hids : (0 < length ids)%nat) by (rewrite (topk_length _ _ _ _ Hspec); lia).
  assert (Ha : exists a, (if is_rebel then at_last ids else at_first ids) = Ok a).
  { destruct is_rebel; [now apply at_last_some | now apply at_first_some]. }
  destruct Ha as [a Ha].
  exists d, (mkTensor [pre] false), vs, ids, a.
  split; [exact Hfw |]. split; [exact Hd |]. split; [exact Htk |].
  split; [exact Hspec |]. split; [exact Ha |].
  unfold act, to, cpu. rewrite Hfw. cbn [data].
  destruct is_rebel.
  - subst n. rewrite topk_row, Htk. simpl. rewrite Ha. reflexivity.
  - destruct Hmode as [Hmode | Hmode]; [discriminate |].
    apply Z.ltb_lt in Hmode. rewrite Hmode.
    subst n. rewrite topk_row, Htk. simpl. rewrite Ha. reflexivity.
Qed.

Lemma sample_row (g : Generator) (row : list R) :
  row <> [] ->
  sample_rows g [row]
  = (Ok [fst (torch_multinomial g row)], snd (torch_multinomial g row)).
Proof.
  destruct row as [|x row]; [congruence | intros _].
  simpl. destruct (torch_multinomial g (x :: row)). reflexivity.
Qed.

Lemma normalised_row (d : list R) :
  sum d = 1 -> map (fun p => p / sum d) d = d.
Proof.
  intros ->. rewrite <- (map_id d) at 2.
  apply map_ext. intros p. apply Rdiv_1_r.
Qed.

(** The sampling branch, on a state of the right length when there is an
    action to draw: the library draws an index from the distribution of
    [forward], and the conversion of its log-probability, which requires
    grad as the distribution does, raises. *)
Lemma act_samples s_size a_size dev h_size theta g state (k : Z) :
  length state = s_size ->
  (0 < a_size)%nat ->
  (k <= 1)%Z ->
  exists d embed i g',
    forward (Agent_init s_size a_size dev h_size theta)
            (unsqueeze0 (from_numpy state))
    = Ok (mkTensor [d] true, embed) /\
    length d = a_size /\
    torch_multinomial g d = (i, g') /\
    (i < a_size)%nat /\
    act (Agent_init s_size a_size dev h_size theta) g state k false
    = (Err RequiresGradError, g').
Proof.
  intros Hlen Ha Hk.
  destruct (forward_row s_size a_size dev h_size theta state Hlen)
    as (pre & logit & _ & _ & Hlogit & Hfw).
  set (d := softmax_row logit) in *.
  assert (Hd : length d = a_size)
    by (unfold d; now rewrite softmax_row_length).
  assert (Hne : logit <> []) by (intros ->; simpl in Hlogit; lia).
  assert (Hsum : sum d = 1) by (now apply softmax_row_sum).
  assert (Hpos : Forall (fun p => 0 < p) d) by apply softmax_row_pos.
  assert (Hdne : d <> []) by (intros E; rewrite E in Hd; simpl in Hd; lia).
  destruct (torch_multinomial g d) as [i g'] eqn:Hdraw.
  assert (Hi : (i < length d)%nat).
  { pose proof (torch_multinomial_spec g d) as Hs.
    rewrite Hdraw in Hs. simpl in Hs. apply Hs; [| lra].
    eapply Forall_impl; [| exact Hpos]. simpl. intros; lra. }
  exists d, (mkTensor [pre] false), i, g'.
  split; [exact Hfw |]. split; [exact Hd |]. split; [exact Hdraw |].
  split; [lia |].
  unfold act, to, cpu. rewrite Hfw.
  assert (Hk' : (1 <? k)%Z = false) by (apply Z.ltb_ge; exact Hk).
  rewrite Hk'.
  unfold sample, Categorical_init. cbn [data cat_probs map].
  rewrite (normalised_row d Hsum).
  rewrite (sample_row g d Hdne), Hdraw. reflexivity.
Qed.


(** A state of the wrong length stops [act] in the first layer. *)
Lemma act_mismatch s_size a_size dev h_size theta g state k is_rebel :
  length state <> s_size ->
  act (Agent_init s_size a_size dev h_size theta) g state k is_rebel
  = (Err ShapeError, g).
Proof.
  intros Hlen. unfold act, to.
  now rewrite forward_mismatch.
Qed.

(** Asking [torch.topk] for more than there are actions. *)
Lemma act_out_of_range s_size a_size dev h_size theta g state (k : Z)
    (is_rebel : bool) :
  length state = s_size ->
  (is_rebel = true \/ (1 < k)%Z) ->
  (a_size < requested k is_rebel)%nat ->
  act (Agent_init s_size a_size dev h_size theta) g state k is_rebel
  = (Err InvalidConfigError, g).
Proof.
  intros Hlen Hmode Hk.
  destruct (forward_row s_size a_size dev h_size theta state Hlen)
    as (pre & logit & _ & _ & Hlogit & Hfw).
  assert (Hd : length (softmax_row logit) = a_size)
    by (now rewrite softmax_row_length).
  unfold act, to, cpu. rewrite Hfw. cbn [data].
  unfold requested in Hk.
  destruct is_rebel.
  - rewrite topk_row, torch_topk_out_of_range by lia. reflexivity.
  - destruct Hmode as [Hmode | Hmode]; [discriminate |].
    apply Z.ltb_lt in Hmode. rewrite Hmode in *.
    rewrite topk_row, torch_topk_out_of_range by lia. reflexivity.
Qed.

End WithTorch.

End ActFacts.

(** ** The example configurations *)

Module ExampleFacts.

Import Example ForwardFacts ActFacts.

Lemma dot_zero (row : list R) : dot (fun _ => 0) row = 0.
Proof.
  unfold dot. induction (seq 0 (length row)) as [|i l IH]; simpl.
  - reflexivity.
  - rewrite IH. ring.
Qed.

Lemma scenario_probs_sum : sum scenario_probs = 1.
Proof. unfold scenario_probs, sum. simpl. lra. Qed.

(** The scenario's parameters produce [scenario_probs] on every state. *)
Lemma scenario_forward (state : list R) :
  length state = 4%nat ->
  exists embed,
    forward scenario_agent (unsqueeze0 (from_numpy state))
    = Ok (mkTensor [scenario_probs] true, embed).
Proof.
  intros Hlen. unfold scenario_agent.
  rewrite (forward_value 4 5 CPU 3 scenario_params state Hlen).
  eexists. f_equal. f_equal. f_equal. f_equal.
  cbn [scenario_params fc2_weight fc2_bias fc1_weight fc1_bias].
  unfold softmax_row.
  cbn [seq map]. rewrite !dot_zero.
  unfold scenario_probs. cbn [nth map sum fold_right].
  rewrite !Rplus_0_l, !exp_ln by lra.
  repeat (apply (f_equal2 cons); [field |]). reflexivity.
Qed.

Ltac largest_at H m :=
  let F := fresh "F" in
  first
    [ assert (F := H m ltac:(simpl; lia)
                       ltac:(simpl; intros [?|[?|[]]]; discriminate));
      simpl in F;
      repeat match goal with
             | X : Forall _ (_ :: _) |- _ => inversion X; clear X; subst
             end
    | idtac ].

(** On [scenario_probs] the contract of [torch.topk] leaves one answer
    for [k = 2]. *)
Lemma scenario_top2 (vs : list R) (ids : list nat) :
  is_topk scenario_probs 2 vs ids ->
  ids = [3; 1]%nat /\ vs = [45/100; 3/10].
Proof.
  intros [Hlen Hnd Hrange Hvals Hsorted Hlargest].
  destruct ids as [|i [|j [|? ?]]]; try discriminate.
  inversion Hrange as [|? ? Hi Hr]; subst.
  inversion Hr as [|? ? Hj _]; subst.
  unfold scenario_probs in *. simpl in Hi, Hj.
  assert (Hij : i <> j).
  { intros ->. apply NoDup_cons_iff in Hnd. apply (proj1 Hnd). now left. }
  apply StronglySorted_inv in Hsorted. destruct Hsorted as [_ Hs].
  inversion Hs as [|? ? Hge _]; subst.
  destruct i as [|[|[|[|[|i]]]]]; try lia;
    destruct j as [|[|[|[|[|j]]]]]; try lia; try (now contradiction Hij);
    simpl in Hge;
    largest_at Hlargest 3%nat; largest_at Hlargest 1%nat;
    simpl in *; try lra.
  split; reflexivity.
Qed.

End ExampleFacts.

(** * The claims *)

Section Claims.

Import ForwardFacts ActFacts ExampleFacts.

Context {T : Torch}.

(** C1. Rebel mode, on a network of at least 13 actions and a state of
    the configured length, whatever [topk]: [act] returns the 13 indices
    [torch.topk] ranks highest on the distribution of [forward], in
    non-increasing order of probability, the 13th of them as the chosen
    action, and the natural logarithm of each of the 13 probabilities. *)
Theorem act_rebel_top13 s_size a_size dev h_size theta g state k :
  length state = s_size ->
  (13 <= a_size)%nat ->
  exists d embed dec,
    forward (Agent_init s_size a_size dev h_size theta)
            (unsqueeze0 (from_numpy state))
    = Ok (mkTensor [d] true, embed) /\
    act (Agent_init s_size a_size dev h_size theta) g state k true
    = (Ok dec, g) /\
    length (action dec) = 13%nat /\
    is_topk d 13 (map (fun i => nth i d 0) (action dec)) (action dec) /\
    nth_error (action dec) 12 = Some (chosen dec) /\
    log_probs dec = [map (fun i => ln (nth i d 0)) (action dec)] /\
    embedding dec = embed.
Proof.
  intros Hlen Ha.
  destruct (act_selects s_size a_size dev h_size theta g state k true 13
              Hlen eq_refl (or_introl eq_refl))
    as (d & embed & vs & ids & a & Hfw & Hd & Htk & Hspec & Hlast & Hact);
    [lia |].
  exists d, embed, (mkDecision ids a [map ln vs] embed).
  pose proof (topk_length _ _ _ _ Hspec) as Hl.
  pose proof (topk_values _ _ _ _ Hspec) as Hv.
  split; [exact Hfw |]. split; [exact Hact |]. simpl.
  split; [exact Hl |].
  split; [now rewrite <- Hv |].
  split; [apply at_last_nth in Hlast; now rewrite Hl in Hlast |].
  split; [now rewrite Hv, map_map | reflexivity].
Qed.

(** C2. Top-k mode ([topk > 1], not rebel, [topk] within the number of
    actions), on a state of the configured length: [act] returns the
    [topk] indices [torch.topk] ranks highest, in non-increasing order of
    probability, the first of them as the chosen action, and the logarithm
    of each selected probability.  On the scenario ([s_size=4], [a_size=5],
    [h_size=3], distribution [0.1, 0.3, 0.05, 0.45, 0.1]) with [topk=2]:
    ranked indices [3, 1], chosen action [3], log-probabilities
    [ln 0.45, ln 0.3]. *)
Theorem act_topk_ranked :
  (forall s_size a_size dev h_size theta g state k,
     length state = s_size ->
     (1 < k)%Z ->
     (Z.to_nat k <= a_size)%nat ->
     exists d embed dec,
       forward (Agent_init s_size a_size dev h_size theta)
               (unsqueeze0 (from_numpy state))
       = Ok (mkTensor [d] true, embed) /\
       act (Agent_init s_size a_size dev h_size theta) g state k false
       = (Ok dec, g) /\
       is_topk d (Z.to_nat k) (map (fun i => nth i d 0) (action dec))
               (action dec) /\
       nth_error (action dec) 0 = Some (chosen dec) /\
       log_probs dec = [map (fun i => ln (nth i d 0)) (action dec)] /\
       embedding dec = embed) /\
  (forall g state,
     length state = 4%nat ->
     exists embed,
       forward Example.scenario_agent (unsqueeze0 (from_numpy state))
       = Ok (mkTensor [[1/10; 3/10; 5/100; 45/100; 1/10]] true, embed) /\
       act Example.scenario_agent g state 2 false
       = (Ok (mkDecision [3; 1]%nat 3 [[ln (45/100); ln (3/10)]] embed), g)).
Proof.
  split.
  - intros s_size a_size dev h_size theta g state k Hlen Hk Ha.
    destruct (act_selects s_size a_size dev h_size theta g state k false
                (Z.to_nat k) Hlen eq_refl (or_intror Hk))
      as (d & embed & vs & ids & a & Hfw & Hd & Htk & Hspec & Hfirst & Hact);
      [lia |].
    exists d, embed, (mkDecision ids a [map ln vs] embed).
    pose proof (topk_values _ _ _ _ Hspec) as Hv.
    split; [exact Hfw |]. split; [exact Hact |]. simpl.
    split; [now rewrite <- Hv |].
    split; [now apply at_first_nth |].
    split; [now rewrite Hv, map_map | reflexivity].
  - intros g state Hlen.
    destruct (scenario_forward state Hlen) as [embed Hsc].
    exists embed. split; [exact Hsc |].
    destruct (act_selects 4 5 CPU 3 Example.scenario_params g state 2 false 2
                Hlen eq_refl (or_intror eq_refl))
      as (d & embed' & vs & ids & a & Hfw & Hd & Htk & Hspec & Hfirst & Hact);
      [lia |].
    unfold Example.scenario_agent in Hsc. rewrite Hsc in Hfw.
    injection Hfw as <- <-.
    apply scenario_top2 in Hspec. destruct Hspec as [-> ->].
    simpl in Hfirst. injection Hfirst as <-.
    exact Hact.
Qed.

(** C5. A state whose length differs from [s_size] makes [forward], and
    with it every call of [act], fail with [ShapeError] in the first
    layer: no decision is returned and the generator is left as it was. *)
Theorem act_shape_error s_size a_size dev h_size theta state :
  length state <> s_size ->
  linear (fc1 (Agent_init s_size a_size dev h_size theta))
         (unsqueeze0 (from_numpy state)) = Err ShapeError /\
  forward (Agent_init s_size a_size dev h_size theta)
          (unsqueeze0 (from_numpy state)) = Err ShapeError /\
  forall g k is_rebel,
    act (Agent_init s_size a_size dev h_size theta) g state k is_rebel
    = (Err ShapeError, g).
Proof.
  intros Hlen. split; [| split].
  - now apply linear_row_mismatch.
  - now apply forward_mismatch.
  - intros g k is_rebel. now apply act_mismatch.
Qed.

(** C6. On a state of length [s_size], [forward] returns a distribution of
    exactly [a_size] non-negative reals; they sum to 1 (exactly, over the
    reals) as soon as the network has an action. *)
Theorem forward_distribution s_size a_size dev h_size theta state :
  length state = s_size ->
  exists d embed,
    forward (Agent_init s_size a_size dev h_size theta)
            (unsqueeze0 (from_numpy state))
    = Ok (mkTensor [d] true, embed) /\
    length d = a_size /\
    Forall (fun p => 0 <= p) d /\
    ((0 < a_size)%nat -> sum d = 1).
Proof.
  intros Hlen.
  destruct (forward_row s_size a_size dev h_size theta state Hlen)
    as (pre & logit & _ & _ & Hlogit & Hfw).
  exists (softmax_row logit), (mkTensor [pre] false).
  split; [exact Hfw |].
  split; [now rewrite softmax_row_length |].
  split.
  - eapply Forall_impl; [| apply softmax_row_pos]. simpl. intros; lra.
  - intros Ha. apply softmax_row_sum. intros ->. simpl in Hlogit. lia.
Qed.


(** C10. In rebel mode the result of [act] does not depend on [topk]. *)
Theorem act_rebel_ignores_topk (ag : Agent) g state (k1 k2 : Z) :
  act ag g state k1 true = act ag g state k2 true.
Proof.
  unfold act. destruct (forward ag _) as [[probs embed] | e]; reflexivity.
Qed.

(** C3 (amended). On a state of the configured length, a top-k call
    ([is_rebel] false, [topk > 1]) with [topk > a_size], and a rebel call
    on a network of fewer than 13 actions, fail with [InvalidConfigError]:
    no decision is returned and the generator is left as it was.  (A rebel
    call ignores [topk].) *)
Theorem act_invalid_config s_size a_size dev h_size theta g state (k : Z)
    (is_rebel : bool) :
  length state = s_size ->
  (is_rebel = false /\ (1 < k)%Z /\ (Z.of_nat a_size < k)%Z) \/
  (is_rebel = true /\ (a_size < 13)%nat) ->
  act (Agent_init s_size a_size dev h_size theta) g state k is_rebel
  = (Err InvalidConfigError, g).
Proof.
  intros Hlen [(-> & Hk & Ha) | (-> & Ha)].
  - apply act_out_of_range; [exact Hlen | now right |].
    unfold requested. apply Z.ltb_lt in Hk. rewrite Hk. lia.
  - apply act_out_of_range; [exact Hlen | now left |].
    unfold requested. exact Ha.
Qed.

(** C4. Where the code departs from the claim: a stochastic call
    ([topk <= 1], not rebel) on a state of the configured length, with an
    action to draw, draws an index and then raises, since
    [np.array([m.log_prob(action)])] is handed a tensor that requires
    grad: no log-probability is returned.  Rebel and top-k calls do what
    the claim says: every selected index is a valid action and its
    log-probability is the natural logarithm of its entry in the
    distribution of [forward]. *)
Theorem act_stochastic_returns_no_log_prob s_size a_size dev h_size theta
    g state (k : Z) :
  length state = s_size ->
  ((0 < a_size)%nat -> (k <= 1)%Z ->
   exists d embed i g',
     forward (Agent_init s_size a_size dev h_size theta)
             (unsqueeze0 (from_numpy state))
     = Ok (mkTensor [d] true, embed) /\
     torch_multinomial g d = (i, g') /\
     (i < a_size)%nat /\
     act (Agent_init s_size a_size dev h_size theta) g state k false
     = (Err RequiresGradError, g')) /\
  (forall is_rebel,
     is_rebel = true \/ (1 < k)%Z ->
     (requested k is_rebel <= a_size)%nat ->
     exists d embed dec,
       forward (Agent_init s_size a_size dev h_size theta)
               (unsqueeze0 (from_numpy state))
       = Ok (mkTensor [d] true, embed) /\
       act (Agent_init s_size a_size dev h_size theta) g state k is_rebel
       = (Ok dec, g) /\
       Forall (fun i => (i < a_size)%nat) (action dec) /\
       log_probs dec = [map (fun i => ln (nth i d 0)) (action dec)]).
Proof.
  intros Hlen. split.
  - intros Ha Hk.
    destruct (act_samples s_size a_size dev h_size theta g state k Hlen Ha Hk)
      as (d & embed & i & g' & Hfw & _ & Hdraw & Hi & Hact).
    exists d, embed, i, g'.
    split; [exact Hfw |]. split; [exact Hdraw |]. split; [exact Hi | exact Hact].
  - intros is_rebel Hmode Hreq. unfold requested in Hreq.
    assert (Hk : (0 < (if is_rebel then 13%nat else Z.to_nat k) <= a_size)%nat).
    { destruct is_rebel; [lia |].
      destruct Hmode as [Hm | Hm]; [discriminate |].
      pose proof Hm as Hm'. apply Z.ltb_lt in Hm'. rewrite Hm' in Hreq. lia. }
    destruct (act_selects s_size a_size dev h_size theta g state k is_rebel
                _ Hlen eq_refl Hmode Hk)
      as (d & embed & vs & ids & a & Hfw & Hd & Htk & Hspec & _ & Hact).
    exists d, embed, (mkDecision ids a [map ln vs] embed).
    split; [exact Hfw |]. split; [exact Hact |]. simpl.
    split; [rewrite <- Hd; exact (topk_range _ _ _ _ Hspec) |].
    now rewrite (topk_values _ _ _ _ Hspec), map_map.
Qed.

(** C8 (amended). In top-k mode, on a state of the configured length and
    a [topk] within the number of actions, the ranking [act] returns is
    the index list of [torch.topk] on the distribution of [forward], as it
    is: an index ranked earlier never has the smaller probability, and
    [act] does nothing about the order of indices of equal probability. *)
Theorem act_topk_ranking s_size a_size dev h_size theta g state (k : Z) :
  length state = s_size ->
  (1 < k)%Z ->
  (Z.to_nat k <= a_size)%nat ->
  exists d embed vs ids dec,
    forward (Agent_init s_size a_size dev h_size theta)
            (unsqueeze0 (from_numpy state))
    = Ok (mkTensor [d] true, embed) /\
    torch_topk d (Z.to_nat k) = Some (vs, ids) /\
    act (Agent_init s_size a_size dev h_size theta) g state k false
    = (Ok dec, g) /\
    action dec = ids /\
    StronglySorted Rge (map (fun i => nth i d 0) (action dec)).
Proof.
  intros Hlen Hk Ha.
  destruct (act_selects s_size a_size dev h_size theta g state k false
              (Z.to_nat k) Hlen eq_refl (or_intror Hk))
    as (d & embed & vs & ids & a & Hfw & Hd & Htk & Hspec & _ & Hact);
    [lia |].
  exists d, embed, vs, ids, (mkDecision ids a [map ln vs] embed).
  split; [exact Hfw |]. split; [exact Htk |]. split; [exact Hact |]. simpl.
  split; [reflexivity |].
  rewrite <- (topk_values _ _ _ _ Hspec). exact (topk_sorted _ _ _ _ Hspec).
Qed.

End Claims.

(** C9 (amended). A POST request that names a location, to [/groups] or
    [/stats]: when the location does not exist, when it holds no
    [Embeddings] entry, or when the helper reports with its sentinel [-1]
    that there are no embeddings (no log files, for [/stats]), the view
    returns the structured error object (title [Error], a message, icon
    [error]).  When the helper raises on what it finds at an existing
    location, the view catches nothing and the exception leaves it. *)
Theorem views_report_no_data (Coord Stat : Type)
    (env : Vitaboard.Env Coord Stat) (request : Vitaboard.Request)
    (location : string) :
  Vitaboard.method request = "POST"%string ->
  Vitaboard.lookup "location" (Vitaboard.form request) = Some location ->
  ((Vitaboard.path_exists env location = false \/
    Vitaboard.path_exists env (Vitaboard.join location "Embeddings") = false \/
    Vitaboard.tsne env location = Vitaboard.Returned Vitaboard.MinusOne) ->
   Vitaboard.is_error (Vitaboard.groups env request)) /\
  ((Vitaboard.path_exists env location = false \/
    Vitaboard.get_life_stats env location
    = Vitaboard.Returned
        (Vitaboard.MinusOne, Vitaboard.MinusOne, Vitaboard.MinusOne)) ->
   Vitaboard.is_error (Vitaboard.stats env request)) /\
  (Vitaboard.path_exists env location = true ->
   Vitaboard.path_exists env (Vitaboard.join location "Embeddings") = true ->
   Vitaboard.tsne env location = Vitaboard.Raised ->
   Vitaboard.groups env request = Vitaboard.Propagated Coord Stat) /\
  (Vitaboard.path_exists env location = true ->
   Vitaboard.get_life_stats env location = Vitaboard.Raised ->
   Vitaboard.stats env request = Vitaboard.Propagated Coord Stat).
Proof.
  intros Hm Hloc. unfold Vitaboard.groups, Vitaboard.stats, Vitaboard.is_error.
  rewrite Hm, Hloc. simpl.
  split; [| split; [| split]].
  - intros H.
    destruct (Vitaboard.path_exists env location) eqn:E1; simpl;
      [| eexists; reflexivity].
    destruct (Vitaboard.path_exists env (Vitaboard.join location "Embeddings"))
      eqn:E2; simpl; [| eexists; reflexivity].
    destruct H as [H | [H | H]]; try discriminate.
    rewrite H. eexists; reflexivity.
  - intros H.
    destruct (Vitaboard.path_exists env location) eqn:E1; simpl;
      [| eexists; reflexivity].
    destruct H as [H | H]; try discriminate.
    rewrite H. eexists; reflexivity.
  - intros H1 H2 H3. now rewrite H1, H2, H3.
  - intros H1 H2. now rewrite H1, H2.
Qed.

(** ** The claims that fail as stated *)

(** C9 as stated fails: a location that exists, with its [Embeddings]
    entry, on whose contents the helpers raise; both views let the
    exception through and return no error object. *)
Lemma views_propagate_helper_exception :
  Vitaboard.groups
    (Vitaboard.mkEnv unit unit (fun _ => true)
       (fun _ => Vitaboard.Raised) (fun _ => Vitaboard.Raised))
    (Vitaboard.mkRequest "POST" [("location", "runs/agent_0")%string])
  = Vitaboard.Propagated unit unit /\
  Vitaboard.stats
    (Vitaboard.mkEnv unit unit (fun _ => true)
       (fun _ => Vitaboard.Raised) (fun _ => Vitaboard.Raised))
    (Vitaboard.mkRequest "POST" [("location", "runs/agent_0")%string])
  = Vitaboard.Propagated unit unit /\
  ~ Vitaboard.is_error
      (Vitaboard.groups
         (Vitaboard.mkEnv unit unit (fun _ => true)
            (fun _ => Vitaboard.Raised) (fun _ => Vitaboard.Raised))
         (Vitaboard.mkRequest "POST" [("location", "runs/agent_0")%string])) /\
  ~ Vitaboard.is_error
      (Vitaboard.stats
         (Vitaboard.mkEnv unit unit (fun _ => true)
            (fun _ => Vitaboard.Raised) (fun _ => Vitaboard.Raised))
         (Vitaboard.mkRequest "POST" [("location", "runs/agent_0")%string])).
Proof.
  split; [reflexivity |]. split; [reflexivity |].
  split; intros [text H]; discriminate H.
Qed.

(** C3 as stated fails: a rebel call with [topk = 14 > a_size = 13]
    returns a decision. *)
Lemma act_rebel_topk_above_a_size :
  (Z.of_nat 13 < 14)%Z /\
  exists dec,
    act (T := LowerFirstTorch)
        (Agent_init 1 13 CPU 1 Example.zero_params) 0%nat [0] 14 true
    = (Ok dec, 0%nat).
Proof.
  split; [lia |].
  destruct (ActFacts.act_selects (T := LowerFirstTorch)
              1 13 CPU 1 Example.zero_params 0%nat [0] 14 true 13
              eq_refl eq_refl (or_introl eq_refl))
    as (d & embed & vs & ids & a & _ & _ & _ & _ & _ & Hact); [lia |].
  eexists. exact Hact.
Qed.

(** C8 as stated fails: on the scenario's distribution
    [0.1, 0.3, 0.05, 0.45, 0.1] with [topk = 5], the CPU kernel of
    [torch.topk] ranks the two actions of probability 0.1 with index 4
    before index 0, and [act] returns the ranking [3, 1, 4, 0, 2]. *)
Lemma act_topk_tie_scenario :
  exists embed dec,
    forward Example.scenario_agent (unsqueeze0 (from_numpy [0; 0; 0; 0]))
    = Ok (mkTensor [[1/10; 3/10; 5/100; 45/100; 1/10]] true, embed) /\
    act (T := CpuTorch) Example.scenario_agent 0%nat [0; 0; 0; 0] 5 false
    = (Ok dec, 0%nat) /\
    action dec = [3; 1; 4; 0; 2]%nat /\
    ~ lower_index_first [1/10; 3/10; 5/100; 45/100; 1/10] (action dec).
Proof.
  destruct (ExampleFacts.scenario_forward [0; 0; 0; 0] eq_refl) as [embed Hsc].
  destruct (ActFacts.act_selects (T := CpuTorch)
              4 5 CPU 3 Example.scenario_params 0%nat [0; 0; 0; 0] 5 false 5
              eq_refl eq_refl (or_intror eq_refl))
    as (d & embed' & vs & ids & a & Hfw & _ & Htk & _ & Hfirst & Hact);
    [lia |].
  unfold Example.scenario_agent in Hsc. rewrite Hsc in Hfw.
  injection Hfw as <- <-.
  change (Cpu.topk Example.scenario_probs 5 = Some (vs, ids)) in Htk.
  rewrite CpuFacts.topk_scenario_5 in Htk. injection Htk as <- <-.
  simpl in Hfirst. injection Hfirst as <-.
  exists embed, (mkDecision [3; 1; 4; 0; 2]%nat 3
                   [map ln [45/100; 3/10; 1/10; 1/10; 5/100]] embed).
  split; [exact Hsc |]. split; [exact Hact |]. simpl.
  split; [reflexivity |].
  intros H. specialize (H 2%nat 3%nat 4%nat 0%nat).
  simpl in H. specialize (H ltac:(lia) eq_refl eq_refl eq_refl). lia.
Qed.

(** ** The theorems at concrete inputs *)

(** [act_rebel_top13] on 13 equally likely actions, with [topk = 5]. *)
Lemma act_rebel_top13_witness :
  length [0] = 1%nat /\ (13 <= 13)%nat /\
  exists dec,
    act (T := LowerFirstTorch)
        (Agent_init 1 13 CPU 1 Example.zero_params) 0%nat [0] 5 true
    = (Ok dec, 0%nat) /\
    length (action dec) = 13%nat /\
    nth_error (action dec) 12 = Some (chosen dec).
Proof.
  split; [reflexivity |]. split; [lia |].
  destruct (act_rebel_top13 (T := LowerFirstTorch)
              1 13 CPU 1 Example.zero_params 0%nat [0] 5
              eq_refl (le_n 13))
    as (d & embed & dec & _ & Hact & Hlen & _ & Hch & _).
  exists dec. split; [exact Hact |]. split; [exact Hlen | exact Hch].
Defined.

(** [act_topk_ranked] on the scenario, with a library that ranks ties by
    increasing index. *)
Lemma act_topk_ranked_witness :
  length [0; 0; 0; 0] = 4%nat /\
  exists embed,
    act (T := LowerFirstTorch) Example.scenario_agent 0%nat [0; 0; 0; 0] 2 false
    = (Ok (mkDecision [3; 1]%nat 3 [[ln (45/100); ln (3/10)]] embed), 0%nat).
Proof.
  split; [reflexivity |].
  destruct (proj2 (act_topk_ranked (T := LowerFirstTorch))
              0%nat [0; 0; 0; 0] eq_refl)
    as (embed & _ & Hact).
  exists embed. exact Hact.
Defined.

(** [act_invalid_config]: rebel mode on the scenario's five actions. *)
Lemma act_invalid_config_witness :
  length [0; 0; 0; 0] = 4%nat /\ (5 < 13)%nat /\
  act (T := LowerFirstTorch) Example.scenario_agent 0%nat [0; 0; 0; 0] 2 true
  = (Err InvalidConfigError, 0%nat).
Proof.
  split; [reflexivity |]. split; [lia |].
  apply (act_invalid_config (T := LowerFirstTorch)
           4 5 CPU 3 Example.scenario_params 0%nat [0; 0; 0; 0] 2 true eq_refl).
  right. split; [reflexivity | lia].
Defined.

(** [act_stochastic_returns_no_log_prob] on the scenario, [topk = 1]. *)
Lemma act_stochastic_returns_no_log_prob_witness :
  length [0; 0; 0; 0] = 4%nat /\ (0 < 5)%nat /\ (1 <= 1)%Z /\
  exists g',
    act (T := LowerFirstTorch) Example.scenario_agent 0%nat [0; 0; 0; 0] 1 false
    = (Err RequiresGradError, g').
Proof.
  split; [reflexivity |]. split; [lia |]. split; [lia |].
  destruct (proj1 (act_stochastic_returns_no_log_prob (T := LowerFirstTorch)
                     4 5 CPU 3 Example.scenario_params 0%nat [0; 0; 0; 0] 1
                     eq_refl)
                  ltac:(lia) ltac:(lia))
    as (d & embed & i & g' & _ & _ & _ & Hact).
  exists g'. exact Hact.
Defined.

(** [act_shape_error]: a state of one entry for the scenario's [s_size = 4]. *)
Lemma act_shape_error_witness :
  length [0] <> 4%nat /\
  act (T := LowerFirstTorch) Example.scenario_agent 0%nat [0] 2 false
  = (Err ShapeError, 0%nat).
Proof.
  assert (H : length [0] <> 4%nat) by (simpl; lia).
  split; [exact H |].
  apply (proj2 (proj2 (act_shape_error (T := LowerFirstTorch)
                         4 5 CPU 3 Example.scenario_params [0] H))).
Defined.

(** [forward_distribution] on the scenario. *)
Lemma forward_distribution_witness :
  length [0; 0; 0; 0] = 4%nat /\
  exists d embed,
    forward Example.scenario_agent (unsqueeze0 (from_numpy [0; 0; 0; 0]))
    = Ok (mkTensor [d] true, embed) /\
    length d = 5%nat /\ sum d = 1.
Proof.
  split; [reflexivity |].
  destruct (forward_distribution 4 5 CPU 3 Example.scenario_params
              [0; 0; 0; 0] eq_refl)
    as (d & embed & Hfw & Hlen & _ & Hsum).
  exists d, embed. split; [exact Hfw |]. split; [exact Hlen |].
  apply Hsum. lia.
Defined.


(** [act_topk_ranking] on the scenario, [topk = 3]. *)
Lemma act_topk_ranking_witness :
  length [0; 0; 0; 0] = 4%nat /\ (1 < 3)%Z /\ (Z.to_nat 3 <= 5)%nat /\
  exists d dec,
    act (T := LowerFirstTorch) Example.scenario_agent 0%nat [0; 0; 0; 0] 3 false
    = (Ok dec, 0%nat) /\
    StronglySorted Rge (map (fun i => nth i d 0) (action dec)).
Proof.
  split; [reflexivity |]. split; [lia |]. split; [simpl; lia |].
  destruct (act_topk_ranking (T := LowerFirstTorch)
              4 5 CPU 3 Example.scenario_params 0%nat [0; 0; 0; 0] 3
              eq_refl ltac:(lia) ltac:(simpl; lia))
    as (d & embed & vs & ids & dec & _ & _ & Hact & _ & Hs).
  exists d, dec. split; [exact Hact | exact Hs].
Defined.

(** [views_report_no_data] on a file system that holds nothing. *)
Lemma views_report_no_data_witness :
  Vitaboard.is_error
    (Vitaboard.groups
       (Vitaboard.mkEnv unit unit (fun _ => false)
          (fun _ => Vitaboard.Raised) (fun _ => Vitaboard.Raised))
       (Vitaboard.mkRequest "POST" [("location", "runs/agent_0")%string])) /\
  Vitaboard.is_error
    (Vitaboard.stats
       (Vitaboard.mkEnv unit unit (fun _ => false)
          (fun _ => Vitaboard.Raised) (fun _ => Vitaboard.Raised))
       (Vitaboard.mkRequest "POST" [("location", "runs/agent_0")%string])).
Proof.
  destruct (views_report_no_data unit unit
              (Vitaboard.mkEnv unit unit (fun _ => false)
                 (fun _ => Vitaboard.Raised) (fun _ => Vitaboard.Raised))
              (Vitaboard.mkRequest "POST" [("location", "runs/agent_0")%string])
              "runs/agent_0" eq_refl eq_refl)
    as (Hg & Hs & _).
  split; [apply Hg | apply Hs]; left; reflexivity.
Defined.

(** A view answers every POST request that names a location with a
    [jsonify]-ed object, unless its helper raises. *)
Lemma views_reply_unless_helper_raises (Coord Stat : Type)
    (env : Vitaboard.Env Coord Stat) (request : Vitaboard.Request)
    (location : string) :
  Vitaboard.method request = "POST"%string ->
  Vitaboard.lookup "location" (Vitaboard.form request) = Some location ->
  (Vitaboard.tsne env location <> Vitaboard.Raised ->
   exists body, Vitaboard.groups env request = Vitaboard.Jsonify Coord Stat body) /\
  (Vitaboard.get_life_stats env location <> Vitaboard.Raised ->
   exists body, Vitaboard.stats env request = Vitaboard.Jsonify Coord Stat body).
Proof.
  intros Hm Hloc. unfold Vitaboard.groups, Vitaboard.stats, Vitaboard.error.
  rewrite Hm, Hloc. simpl.
  split; intros Hr.
  - destruct (Vitaboard.path_exists env location); simpl;
      [| eexists; reflexivity].
    destruct (Vitaboard.path_exists env _); simpl; [| eexists; reflexivity].
    destruct (Vitaboard.tsne env location) as [[| coord] |];
      [eexists; reflexivity | eexists; reflexivity | contradiction].
  - destruct (Vitaboard.path_exists env location); simpl;
      [| eexists; reflexivity].
    destruct (Vitaboard.get_life_stats env location)
      as [[[[| m] [| v]] [| q]] |];
      try (eexists; reflexivity); contradiction.
Qed.

(** * Further properties of the policy network and of action selection *)

Module MoreFacts.

Import ForwardFacts ActFacts.

Lemma elem_le_sum (xs : list R) (x : R) :
  Forall (fun p => 0 <= p) xs -> In x xs -> x <= sum xs.
Proof.
  induction 1 as [|y ys Hy Hys IH]; simpl; intros Hin.
  - contradiction.
  - pose proof (SelectFacts.sum_nonneg ys Hys) as Hs.
    destruct Hin as [-> | Hin]; [lra |].
    specialize (IH Hin). lra.
Qed.

Lemma softmax_row_unit row : Forall (fun p => 0 < p <= 1) (softmax_row row).
Proof.
  pose proof (softmax_row_pos row) as Hpos.
  apply Forall_forall. intros p Hp.
  split; [rewrite Forall_forall in Hpos; now apply Hpos |].
  assert (Hne : row <> []).
  { intros ->. simpl in Hp. contradiction. }
  rewrite <- (softmax_row_sum row Hne).
  apply elem_le_sum; [| exact Hp].
  eapply Forall_impl; [| exact Hpos]. simpl. intros; lra.
Qed.

Lemma ln_nonpos (p : R) : 0 < p <= 1 -> ln p <= 0.
Proof.
  intros [Hp [Hlt | ->]].
  - rewrite <- ln_1. left. now apply ln_increasing.
  - rewrite ln_1. lra.
Qed.

Lemma ln_monotone (x y : R) : 0 < x -> x <= y -> ln x <= ln y.
Proof.
  intros Hx [Hlt | ->]; [left; now apply ln_increasing | lra].
Qed.

(** The first index of a selection has the largest value of the row. *)
Lemma is_topk_first_max (d : list R) k vs ids i :
  is_topk d k vs ids -> at_first ids = Ok i ->
  forall j, (j < length d)%nat -> nth j d 0 <= nth i d 0.
Proof.
  intros [_ _ _ Hv Hs Hl] Hi j Hj.
  destruct ids as [|i' rest]; [discriminate |].
  simpl in Hi. injection Hi as ->.
  simpl in Hv. subst vs.
  destruct (in_dec Nat.eq_dec j (i :: rest)) as [Hin | Hout].
  - destruct Hin as [-> | Hin]; [lra |].
    apply StronglySorted_inv in Hs. destruct Hs as [_ Hs].
    rewrite Forall_forall in Hs.
    specialize (Hs (nth j d 0) (in_map (fun i => nth i d 0) _ _ Hin)). lra.
  - specialize (Hl j Hj Hout). inversion Hl; subst. assumption.
Qed.

(** The last index of a selection has the smallest value selected, and no
    value left out exceeds it. *)
Lemma is_topk_last_threshold (d : list R) k vs ids a :
  is_topk d k vs ids -> at_last ids = Ok a ->
  (forall i, In i ids -> nth a d 0 <= nth i d 0) /\
  (forall j, (j < length d)%nat -> ~ In j ids -> nth j d 0 <= nth a d 0).
Proof.
  intros [_ _ _ Hv Hs Hl] Ha.
  unfold at_last in Ha.
  destruct (rev ids) as [|a' t] eqn:E; [discriminate |].
  simpl in Ha. injection Ha as ->.
  assert (Hids : ids = rev t ++ [a]).
  { rewrite <- (rev_involutive ids), E. reflexivity. }
  subst ids. rewrite map_app in Hv. simpl in Hv. subst vs.
  split.
  - intros i Hi. apply in_app_or in Hi. destruct Hi as [Hi | [<- | []]]; [| lra].
    apply SelectFacts.sorted_app_inv in Hs. destruct Hs as [_ Hs].
    rewrite Forall_forall in Hs.
    specialize (Hs _ (in_map (fun i => nth i d 0) _ _ Hi)).
    inversion Hs; subst. lra.
  - intros j Hj Hout. specialize (Hl j Hj Hout).
    rewrite Forall_forall in Hl. apply Hl.
    apply in_or_app. right. now left.
Qed.

Lemma sorted_map_ln (vs : list R) :
  Forall (fun v => 0 < v) vs ->
  StronglySorted Rge vs -> StronglySorted Rge (map ln vs).
Proof.
  intros Hpos Hs. induction Hs as [|v vs Hs IH Hv]; simpl; constructor.
  - apply IH. now inversion Hpos.
  - inversion Hpos as [|? ? _ Hvs]; subst.
    apply Forall_map. rewrite Forall_forall in *. intros w Hw.
    specialize (Hv w Hw). specialize (Hvs w Hw).
    apply Rle_ge. apply ln_monotone; lra.
Qed.

End MoreFacts.

Section MoreClaims.

Import ForwardFacts ActFacts MoreFacts.

Context {T : Torch}.

(** X3. The distribution depends on a state only through the rectified
    values of the hidden layer: two states whose hidden values agree
    after [relu] get the same distribution, whatever their embeddings. *)
Theorem forward_rectified_hidden s_size a_size dev h_size theta
    state1 state2 pre1 pre2 :
  linear (fc1 (Agent_init s_size a_size dev h_size theta))
         (unsqueeze0 (from_numpy state1)) = Ok (mkTensor [pre1] true) ->
  linear (fc1 (Agent_init s_size a_size dev h_size theta))
         (unsqueeze0 (from_numpy state2)) = Ok (mkTensor [pre2] true) ->
  map (Rmax 0) pre1 = map (Rmax 0) pre2 ->
  exists probs,
    forward (Agent_init s_size a_size dev h_size theta)
            (unsqueeze0 (from_numpy state1))
    = Ok (probs, mkTensor [pre1] false) /\
    forward (Agent_init s_size a_size dev h_size theta)
            (unsqueeze0 (from_numpy state2))
    = Ok (probs, mkTensor [pre2] false).
Proof.
  intros H1 H2 Hrelu.
  assert (Hl1 : length pre1 = h_size).
  { apply linear_row_length in H1. inversion H1; subst. assumption. }
  unfold forward. rewrite H1, H2. cbn [bind].
  unfold relu, clone, detach. cbn [data requires_grad map].
  rewrite <- Hrelu.
  rewrite linear_row by (cbn; now rewrite length_map).
  eexists. split; reflexivity.
Qed.

(** X6. In top-k mode the chosen action is an action of largest
    probability over the whole distribution. *)
Theorem act_topk_chosen_is_argmax s_size a_size dev h_size theta g state
    (topk : Z) :
  length state = s_size ->
  (1 < topk)%Z ->
  (Z.to_nat topk <= a_size)%nat ->
  exists d embed dec,
    forward (Agent_init s_size a_size dev h_size theta)
            (unsqueeze0 (from_numpy state))
    = Ok (mkTensor [d] true, embed) /\
    act (Agent_init s_size a_size dev h_size theta) g state topk false
    = (Ok dec, g) /\
    (chosen dec < a_size)%nat /\
    forall j, (j < a_size)%nat -> nth j d 0 <= nth (chosen dec) d 0.
Proof.
  intros Hlen Hk Ha.
  destruct (act_selects s_size a_size dev h_size theta g state topk false
              (Z.to_nat topk) Hlen eq_refl (or_intror Hk))
    as (d & embed & vs & ids & a & Hfw & Hd & Htk & Hspec & Hfirst & Hact);
    [lia |].
  exists d, embed, (mkDecision ids a [map ln vs] embed).
  split; [exact Hfw |]. split; [exact Hact |]. simpl.
  split.
  - pose proof (topk_range _ _ _ _ Hspec) as Hr.
    destruct ids as [|i rest]; [discriminate |].
    simpl in Hfirst. injection Hfirst as ->.
    inversion Hr; subst. lia.
  - intros j Hj. apply (is_topk_first_max d _ vs ids a Hspec Hfirst). lia.
Qed.

(** X7. In rebel mode the chosen action is the threshold of the
    selection: none of the 13 ranked actions is less likely than it, and
    no action left out is more likely. *)
Theorem act_rebel_chosen_is_threshold s_size a_size dev h_size theta g state
    (topk : Z) :
  length state = s_size ->
  (13 <= a_size)%nat ->
  exists d embed dec,
    forward (Agent_init s_size a_size dev h_size theta)
            (unsqueeze0 (from_numpy state))
    = Ok (mkTensor [d] true, embed) /\
    act (Agent_init s_size a_size dev h_size theta) g state topk true
    = (Ok dec, g) /\
    In (chosen dec) (action dec) /\
    (forall i, In i (action dec) -> nth (chosen dec) d 0 <= nth i d 0) /\
    (forall j, (j < a_size)%nat -> ~ In j (action dec) ->
               nth j d 0 <= nth (chosen dec) d 0).
Proof.
  intros Hlen Ha.
  destruct (act_selects s_size a_size dev h_size theta g state topk true 13
              Hlen eq_refl (or_introl eq_refl))
    as (d & embed & vs & ids & a & Hfw & Hd & Htk & Hspec & Hlast & Hact);
    [lia |].
  exists d, embed, (mkDecision ids a [map ln vs] embed).
  split; [exact Hfw |]. split; [exact Hact |]. simpl.
  destruct (is_topk_last_threshold d _ vs ids a Hspec Hlast) as [Hin Hout].
  split.
  - apply at_last_nth in Hlast. now apply nth_error_In in Hlast.
  - split; [exact Hin |]. intros j Hj. apply Hout. lia.
Qed.

(** X8. Top-k mode with [topk = a_size] ranks every action exactly once:
    the ranked list is a permutation of [0, ..., a_size - 1]. *)
Theorem act_topk_all_actions s_size a_size dev h_size theta g state :
  length state = s_size ->
  (1 < a_size)%nat ->
  exists dec,
    act (Agent_init s_size a_size dev h_size theta) g state
        (Z.of_nat a_size) false
    = (Ok dec, g) /\
    Permutation (action dec) (seq 0 a_size).
Proof.
  intros Hlen Ha.
  assert (Hk : (1 < Z.of_nat a_size)%Z) by lia.
  destruct (act_selects s_size a_size dev h_size theta g state
              (Z.of_nat a_size) false a_size Hlen
              (eq_sym (Nat2Z.id a_size)) (or_intror Hk))
    as (d & embed & vs & ids & a & Hfw & Hd & Htk & Hspec & _ & Hact);
    [lia |].
  exists (mkDecision ids a [map ln vs] embed).
  split; [exact Hact |]. simpl.
  apply NoDup_Permutation_bis.
  - exact (topk_nodup _ _ _ _ Hspec).
  - rewrite length_seq, (topk_length _ _ _ _ Hspec). lia.
  - intros i Hi. apply in_seq.
    pose proof (topk_range _ _ _ _ Hspec) as Hr.
    rewrite Forall_forall in Hr. specialize (Hr i Hi). lia.
Qed.

(** X9. Every log-probability a rebel or top-k call returns is at
    most 0. *)
Theorem act_log_probs_nonpositive s_size a_size dev h_size theta g state
    (topk : Z) (is_rebel : bool) :
  length state = s_size ->
  (is_rebel = true \/ (1 < topk)%Z) ->
  (requested topk is_rebel <= a_size)%nat ->
  exists dec,
    act (Agent_init s_size a_size dev h_size theta) g state topk is_rebel
    = (Ok dec, g) /\
    Forall (Forall (fun lp => lp <= 0)) (log_probs dec).
Proof.
  intros Hlen Hmode Hreq. unfold requested in Hreq.
  assert (Hk : (0 < (if is_rebel then 13%nat else Z.to_nat topk) <= a_size)%nat).
  { destruct is_rebel; [lia |].
    destruct Hmode as [Hm | Hm]; [discriminate |].
    pose proof Hm as Hm'. apply Z.ltb_lt in Hm'. rewrite Hm' in Hreq. lia. }
  destruct (act_selects s_size a_size dev h_size theta g state topk is_rebel
              _ Hlen eq_refl Hmode Hk)
    as (d & embed & vs & ids & a & Hfw & Hd & Htk & Hspec & _ & Hact).
  exists (mkDecision ids a [map ln vs] embed).
  split; [exact Hact |]. simpl. constructor; [| constructor].
  destruct (forward_row s_size a_size dev h_size theta state Hlen)
    as (pre & logit & _ & _ & _ & Hfw').
  rewrite Hfw in Hfw'. injection Hfw' as Hdd _.
  pose proof (softmax_row_unit logit) as Hu. rewrite <- Hdd in Hu.
  rewrite Forall_forall in Hu.
  rewrite (topk_values _ _ _ _ Hspec), map_map.
  apply Forall_map, Forall_forall. intros i Hi.
  apply ln_nonpos, Hu, nth_In.
  pose proof (topk_range _ _ _ _ Hspec) as Hr.
  rewrite Forall_forall in Hr. now apply Hr.
Qed.

(** X10. In rebel and top-k mode the log-probabilities come in the order
    of the ranking, so they never increase along the row. *)
Theorem act_ranked_log_probs_sorted s_size a_size dev h_size theta g state
    (topk : Z) (is_rebel : bool) :
  length state = s_size ->
  (is_rebel = true \/ (1 < topk)%Z) ->
  (requested topk is_rebel <= a_size)%nat ->
  exists dec row,
    act (Agent_init s_size a_size dev h_size theta) g state topk is_rebel
    = (Ok dec, g) /\
    log_probs dec = [row] /\
    length row = length (action dec) /\
    StronglySorted Rge row.
Proof.
  intros Hlen Hmode Hreq. unfold requested in Hreq.
  assert (Hk : (0 < (if is_rebel then 13%nat else Z.to_nat topk) <= a_size)%nat).
  { destruct is_rebel; [lia |].
    destruct Hmode as [Hm | Hm]; [discriminate |].
    pose proof Hm as Hm'. apply Z.ltb_lt in Hm'. rewrite Hm' in Hreq. lia. }
  destruct (act_selects s_size a_size dev h_size theta g state topk is_rebel
              _ Hlen eq_refl Hmode Hk)
    as (d & embed & vs & ids & a & Hfw & Hd & Htk & Hspec & _ & Hact).
  exists (mkDecision ids a [map ln vs] embed), (map ln vs).
  split; [exact Hact |]. simpl. split; [reflexivity |].
  split.
  - rewrite (topk_values _ _ _ _ Hspec). now rewrite !length_map.
  - apply sorted_map_ln; [| exact (topk_sorted _ _ _ _ Hspec)].
    destruct (forward_row s_size a_size dev h_size theta state Hlen)
      as (pre & logit & _ & _ & _ & Hfw').
    rewrite Hfw in Hfw'. injection Hfw' as Hdd _.
    pose proof (softmax_row_pos logit) as Hu. rewrite <- Hdd in Hu.
    rewrite Forall_forall in Hu.
    rewrite (topk_values _ _ _ _ Hspec).
    apply Forall_map, Forall_forall. intros i Hi.
    apply Hu, nth_In.
    pose proof (topk_range _ _ _ _ Hspec) as Hr.
    rewrite Forall_forall in Hr. now apply Hr.
Qed.

End MoreClaims.

(** * Further properties of the vitaboard views *)

(** X12. [/groups], on a POST request that names a location: the reply is
    the success object, carrying coordinates [c], exactly when the
    location exists, holds an [Embeddings] entry, and [tsne] returned the
    coordinates [c]. *)
Theorem groups_success_iff (Coord Stat : Type)
    (env : Vitaboard.Env Coord Stat) (request : Vitaboard.Request)
    (location : string) (c : Coord) :
  Vitaboard.method request = "POST"%string ->
  Vitaboard.lookup "location" (Vitaboard.form request) = Some location ->
  (Vitaboard.groups env request
   = Vitaboard.Jsonify Coord Stat
       [("title", Vitaboard.JString Coord Stat "Success");
        ("text", Vitaboard.JString Coord Stat "Groups generated successfully");
        ("icon", Vitaboard.JString Coord Stat "success");
        ("coord", Vitaboard.JCoord Coord Stat c)]%string
   <->
   Vitaboard.path_exists env location = true /\
   Vitaboard.path_exists env (Vitaboard.join location "Embeddings") = true /\
   Vitaboard.tsne env location = Vitaboard.Returned (Vitaboard.Data c)).
Proof.
  intros Hm Hloc. unfold Vitaboard.groups, Vitaboard.error.
  rewrite Hm, Hloc. simpl.
  destruct (Vitaboard.path_exists env location); simpl;
    [| split; [discriminate | intros [H _]; discriminate]].
  destruct (Vitaboard.path_exists env (Vitaboard.join location "Embeddings"));
    simpl; [| split; [discriminate | intros (_ & H & _); discriminate]].
  destruct (Vitaboard.tsne env location) as [[| coord] |].
  - split; [discriminate | intros (_ & _ & H); discriminate].
  - split.
    + intros H. injection H as ->. repeat split; reflexivity.
    + intros (_ & _ & H). injection H as ->. reflexivity.
  - split; [discriminate | intros (_ & _ & H); discriminate].
Qed.

(** X13. [/stats], on a POST request that names an existing location,
    when [get_life_stats] returns: the reply is the error object only if
    all three of mean, variance and quality of fit are [-1]; with any one
    of them present the reply is the success object and carries the three
    values as they came, a [-1] among them included. *)
Theorem stats_error_needs_all_three (Coord Stat : Type)
    (env : Vitaboard.Env Coord Stat) (request : Vitaboard.Request)
    (location : string) (mean variance qof : Vitaboard.Value Stat) :
  Vitaboard.method request = "POST"%string ->
  Vitaboard.lookup "location" (Vitaboard.form request) = Some location ->
  Vitaboard.path_exists env location = true ->
  Vitaboard.get_life_stats env location
  = Vitaboard.Returned (mean, variance, qof) ->
  (Vitaboard.is_error (Vitaboard.stats env request) <->
   mean = Vitaboard.MinusOne /\ variance = Vitaboard.MinusOne /\
   qof = Vitaboard.MinusOne) /\
  (~ (mean = Vitaboard.MinusOne /\ variance = Vitaboard.MinusOne /\
      qof = Vitaboard.MinusOne) ->
   Vitaboard.stats env request
   = Vitaboard.Jsonify Coord Stat
       [("title", Vitaboard.JString Coord Stat "Success");
        ("text", Vitaboard.JString Coord Stat "Stats generated successfully");
        ("icon", Vitaboard.JString Coord Stat "success");
        ("mean", Vitaboard.stat_json Coord Stat mean);
        ("variance", Vitaboard.stat_json Coord Stat variance);
        ("qof", Vitaboard.stat_json Coord Stat qof)]%string).
Proof.
  intros Hm Hloc Hex Hst.
  unfold Vitaboard.stats, Vitaboard.is_error, Vitaboard.error.
  rewrite Hm, Hloc, Hex, Hst. simpl.
  destruct mean as [| m]; destruct variance as [| v]; destruct qof as [| q];
    (split;
     [ split;
       [ intros [text H];
         first [ repeat split; reflexivity | discriminate H ]
       | intros (H1 & H2 & H3);
         first [ discriminate H1 | discriminate H2 | discriminate H3
               | eexists; reflexivity ] ]
     | intros H;
       first [ reflexivity
             | exfalso; apply H; repeat split; reflexivity ] ]).
Qed.

(** X14. On a missing location neither view consults its helper, and
    [/groups] does not consult [tsne] either when the location holds no
    [Embeddings] entry: the reply is the same whatever the helpers are. *)
Theorem views_skip_helpers (Coord Stat : Type)
    (env : Vitaboard.Env Coord Stat) (request : Vitaboard.Request)
    (location : string) :
  Vitaboard.method request = "POST"%string ->
  Vitaboard.lookup "location" (Vitaboard.form request) = Some location ->
  Vitaboard.path_exists env location = false \/
  Vitaboard.path_exists env (Vitaboard.join location "Embeddings") = false ->
  forall tsne' get_life_stats',
    Vitaboard.groups
      (Vitaboard.mkEnv Coord Stat (Vitaboard.path_exists env)
                       tsne' get_life_stats') request
    = Vitaboard.groups env request /\
    (Vitaboard.path_exists env location = false ->
     Vitaboard.stats
       (Vitaboard.mkEnv Coord Stat (Vitaboard.path_exists env)
                        tsne' get_life_stats') request
     = Vitaboard.stats env request).
Proof.
  intros Hm Hloc Hmiss tsne' get_life_stats'.
  unfold Vitaboard.groups, Vitaboard.stats.
  rewrite Hm, Hloc. cbn [Vitaboard.path_exists].
  split.
  - destruct (Vitaboard.path_exists env location); simpl; [| reflexivity].
    destruct Hmiss as [H | H]; [discriminate |].
    now rewrite H.
  - intros H. now rewrite H.
Qed.

Module IndexFacts.

Import VitaboardIndex.

Lemma prefix_app (n post : string) : prefix n (n ++ post) = true.
Proof.
  induction n as [|a n IH]; simpl.
  - now destruct post.
  - destruct (Ascii.ascii_dec a a) as [_ | Hne]; [exact IH | contradiction].
Qed.

(** [needle in (pre + needle + post)] *)
Lemma contains_infix (n pre post : string) :
  contains n (pre ++ n ++ post) = true.
Proof.
  induction pre as [|c pre IH].
  - change (contains n (n ++ post) = true).
    pose proof (prefix_app n post) as Hp.
    destruct (n ++ post)%string; cbn [contains]; now rewrite Hp.
  - change (prefix n (String c (pre ++ n ++ post))
            || contains n (pre ++ n ++ post) = true).
    rewrite IH. apply orb_true_r.
Qed.

Lemma update_same (fs : FileSystem) p n : update fs p n p = n.
Proof. unfold update. now rewrite String.eqb_refl. Qed.

Lemma update_other (fs : FileSystem) p n q : q <> p -> update fs p n q = fs q.
Proof.
  intros H. unfold update. apply String.eqb_neq in H. now rewrite H.
Qed.

(** Staging succeeds when no directory stands where the two files go. *)
Lemma stage (fs : FileSystem) (file_location speed contents : string) :
  fs "pass_params.txt"%string <> Some Dir ->
  fs "visualizer.py"%string <> Some Dir ->
  exists fs1,
    write_file fs "pass_params.txt"
               ((file_location ++ newline) ++ (speed ++ newline)) = inr fs1 /\
    write_file fs1 "./visualizer.py" contents
    = inr (staged fs file_location speed contents).
Proof.
  intros Hp Hv. unfold write_file, staged. cbn [cwd_path].
  eexists. split.
  - destruct (fs "pass_params.txt"%string) as [[c |] |];
      [reflexivity | contradiction | reflexivity].
  - rewrite update_other by discriminate.
    destruct (fs "visualizer.py"%string) as [[c |] |];
      [reflexivity | contradiction | reflexivity].
Qed.

End IndexFacts.


(** X16. The name test of [index] is a substring test: an existing
    [file_location] is answered with "You need to pass a npy file" exactly
    when [.npy] occurs nowhere in it, so a location that merely contains
    [.npy] (in a directory name, or before another extension) is let
    through. *)
Theorem index_npy_anywhere (env : VitaboardIndex.Env)
    (fs : VitaboardIndex.FileSystem) (request : Vitaboard.Request)
    (file_location speed : string) :
  Vitaboard.method request = "POST"%string ->
  Vitaboard.lookup "file_location" (Vitaboard.form request)
  = Some file_location ->
  Vitaboard.lookup "speed" (Vitaboard.form request) = Some speed ->
  VitaboardIndex.path_exists fs file_location = true ->
  (fst (VitaboardIndex.index env fs request)
   = VitaboardIndex.error "You need to pass a npy file"
   <-> VitaboardIndex.contains ".npy" file_location = false) /\
  (forall pre post,
     file_location = (pre ++ ".npy" ++ post)%string ->
     fst (VitaboardIndex.index env fs request)
     <> VitaboardIndex.error "You need to pass a npy file").
Proof.
  intros Hm Hloc Hspeed Hex.
  assert (Hiff : fst (VitaboardIndex.index env fs request)
                 = VitaboardIndex.error "You need to pass a npy file"
                 <-> VitaboardIndex.contains ".npy" file_location = false).
  { unfold VitaboardIndex.index.
    rewrite Hm, Hloc, Hspeed, Hex. simpl.
    destruct (VitaboardIndex.contains ".npy" file_location); simpl;
      [| split; reflexivity].
    split; [| discriminate].
    destruct (VitaboardIndex.write_file fs _ _) as [e | fs1];
      [simpl; discriminate |].
    destruct (VitaboardIndex.package_data env _) as [| e | contents];
      [simpl; discriminate | simpl; discriminate |].
    destruct (VitaboardIndex.write_file fs1 _ _) as [e | fs2];
      [simpl; discriminate |].
    destruct (VitaboardIndex.remove _ "pass_params.txt") as [e | fs4];
      [simpl; discriminate |].
    destruct (VitaboardIndex.remove fs4 _) as [e | fs5];
      simpl; discriminate. }
  split; [exact Hiff |].
  intros pre post -> H. apply Hiff in H.
  rewrite IndexFacts.contains_infix in H. discriminate.
Qed.

(** X17. An accepted request, when no directory stands in the way and
    the package holds [visualizer.py]: the visualizer is started on the
    file system with [pass_params.txt] holding the location and the speed,
    one per line, and [visualizer.py] holding the packaged program; if it
    leaves the two files in place, the reply is the success object and
    afterwards neither file exists (whatever [pass_params.txt] or
    [visualizer.py] held before the request is lost), every other path
    being as the visualizer left it. *)
Theorem index_runs_and_cleans_up (env : VitaboardIndex.Env)
    (fs : VitaboardIndex.FileSystem) (request : Vitaboard.Request)
    (file_location speed contents params program : string) :
  Vitaboard.method request = "POST"%string ->
  Vitaboard.lookup "file_location" (Vitaboard.form request)
  = Some file_location ->
  Vitaboard.lookup "speed" (Vitaboard.form request) = Some speed ->
  VitaboardIndex.path_exists fs file_location = true ->
  VitaboardIndex.contains ".npy" file_location = true ->
  fs "pass_params.txt"%string <> Some VitaboardIndex.Dir ->
  fs "visualizer.py"%string <> Some VitaboardIndex.Dir ->
  VitaboardIndex.package_data env "visualizer.py"
  = VitaboardIndex.Bytes contents ->
  VitaboardIndex.system env "python visualizer.py"
    (VitaboardIndex.staged fs file_location speed contents)
    "pass_params.txt"%string = Some (VitaboardIndex.File params) ->
  VitaboardIndex.system env "python visualizer.py"
    (VitaboardIndex.staged fs file_location speed contents)
    "visualizer.py"%string = Some (VitaboardIndex.File program) ->
  exists fs',
    VitaboardIndex.index env fs request = (VitaboardIndex.success, fs') /\
    fs' "pass_params.txt"%string = None /\
    fs' "visualizer.py"%string = None /\
    forall q, q <> "pass_params.txt"%string -> q <> "visualizer.py"%string ->
      fs' q = VitaboardIndex.system env "python visualizer.py"
                (VitaboardIndex.staged fs file_location speed contents) q.
Proof.
  intros Hm Hloc Hspeed Hex Hnpy Hp Hv Hpkg Hp3 Hv3.
  destruct (IndexFacts.stage fs file_location speed contents Hp Hv)
    as (fs1 & Hw1 & Hw2).
  unfold VitaboardIndex.index.
  rewrite Hm, Hloc, Hspeed, Hex, Hnpy. simpl negb. cbv iota.
  change ("POST" =? "GET")%string with false. cbv iota.
  rewrite String.eqb_refl, Hw1, Hpkg, Hw2. cbv zeta.
  set (fs3 := VitaboardIndex.system env "python visualizer.py"
                (VitaboardIndex.staged fs file_location speed contents)) in *.
  unfold VitaboardIndex.remove at 1. cbn [VitaboardIndex.cwd_path].
  rewrite Hp3.
  unfold VitaboardIndex.remove. cbn [VitaboardIndex.cwd_path].
  rewrite IndexFacts.update_other by discriminate. rewrite Hv3.
  eexists. split; [reflexivity |].
  split; [| split].
  - rewrite IndexFacts.update_other by discriminate.
    apply IndexFacts.update_same.
  - apply IndexFacts.update_same.
  - intros q Hq1 Hq2.
    rewrite !IndexFacts.update_other by assumption. reflexivity.
Qed.

(** X18. If the visualizer removes [pass_params.txt] itself, [index]
    ends in [FileNotFoundError] instead of a reply, and nothing is
    cleaned up: the file system stays as the visualizer left it,
    [visualizer.py] included. *)
Theorem index_cleanup_fails_when_params_gone (env : VitaboardIndex.Env)
    (fs : VitaboardIndex.FileSystem) (request : Vitaboard.Request)
    (file_location speed contents : string) :
  Vitaboard.method request = "POST"%string ->
  Vitaboard.lookup "file_location" (Vitaboard.form request)
  = Some file_location ->
  Vitaboard.lookup "speed" (Vitaboard.form request) = Some speed ->
  VitaboardIndex.path_exists fs file_location = true ->
  VitaboardIndex.contains ".npy" file_location = true ->
  fs "pass_params.txt"%string <> Some VitaboardIndex.Dir ->
  fs "visualizer.py"%string <> Some VitaboardIndex.Dir ->
  VitaboardIndex.package_data env "visualizer.py"
  = VitaboardIndex.Bytes contents ->
  VitaboardIndex.system env "python visualizer.py"
    (VitaboardIndex.staged fs file_location speed contents)
    "pass_params.txt"%string = None ->
  VitaboardIndex.index env fs request
  = (VitaboardIndex.Raised VitaboardIndex.FileNotFoundError,
     VitaboardIndex.system env "python visualizer.py"
       (VitaboardIndex.staged fs file_location speed contents)).
Proof.
  intros Hm Hloc Hspeed Hex Hnpy Hp Hv Hpkg Hp3.
  destruct (IndexFacts.stage fs file_location speed contents Hp Hv)
    as (fs1 & Hw1 & Hw2).
  unfold VitaboardIndex.index.
  rewrite Hm, Hloc, Hspeed, Hex, Hnpy. simpl negb. cbv iota.
  change ("POST" =? "GET")%string with false. cbv iota.
  rewrite String.eqb_refl, Hw1, Hpkg, Hw2. cbv zeta.
  unfold VitaboardIndex.remove at 1. cbn [VitaboardIndex.cwd_path].
  rewrite Hp3. reflexivity.
Qed.

(** ** The further properties at concrete inputs *)

(** [forward_rectified_hidden]: a hidden unit that copies the state, on
    the states [-1] and [-2]: different embeddings, one distribution. *)
Lemma forward_rectified_hidden_witness :
  exists probs pre1 pre2,
    forward (Agent_init 1 2 CPU 1
               (mkParams (fun _ _ => 1) (fun _ => 0) (fun _ _ => 0) (fun _ => 0)))
            (unsqueeze0 (from_numpy [-1]))
    = Ok (probs, mkTensor [pre1] false) /\
    forward (Agent_init 1 2 CPU 1
               (mkParams (fun _ _ => 1) (fun _ => 0) (fun _ _ => 0) (fun _ => 0)))
            (unsqueeze0 (from_numpy [-2]))
    = Ok (probs, mkTensor [pre2] false) /\
    pre1 <> pre2.
Proof.
  set (theta := mkParams (fun _ _ => 1) (fun _ => 0) (fun _ _ => 0) (fun _ => 0)).
  assert (Hrelu : map (Rmax 0) [-1 * 1 + 0 + 0] = map (Rmax 0) [-2 * 1 + 0 + 0]).
  { simpl. rewrite !Rmax_left by lra. reflexivity. }
  destruct (forward_rectified_hidden 1 2 CPU 1 theta [-1] [-2]
              [-1 * 1 + 0 + 0] [-2 * 1 + 0 + 0] eq_refl eq_refl Hrelu)
    as (probs & H1 & H2).
  exists probs, [-1 * 1 + 0 + 0], [-2 * 1 + 0 + 0].
  split; [exact H1 |]. split; [exact H2 |].
  intros H. injection H as H. lra.
Defined.

(** [act_topk_chosen_is_argmax] on the scenario, [topk = 3]. *)
Lemma act_topk_chosen_is_argmax_witness :
  length [0; 0; 0; 0] = 4%nat /\ (1 < 3)%Z /\ (Z.to_nat 3 <= 5)%nat /\
  exists d dec,
    act (T := LowerFirstTorch) Example.scenario_agent 0%nat [0; 0; 0; 0] 3 false
    = (Ok dec, 0%nat) /\
    forall j, (j < 5)%nat -> nth j d 0 <= nth (chosen dec) d 0.
Proof.
  split; [reflexivity |]. split; [lia |]. split; [simpl; lia |].
  destruct (act_topk_chosen_is_argmax (T := LowerFirstTorch)
              4 5 CPU 3 Example.scenario_params 0%nat [0; 0; 0; 0] 3
              eq_refl ltac:(lia) ltac:(simpl; lia))
    as (d & embed & dec & _ & Hact & _ & Hmax).
  exists d, dec. split; [exact Hact | exact Hmax].
Defined.

(** [act_rebel_chosen_is_threshold] on 13 equally likely actions. *)
Lemma act_rebel_chosen_is_threshold_witness :
  length [0] = 1%nat /\ (13 <= 13)%nat /\
  exists d dec,
    act (T := LowerFirstTorch)
        (Agent_init 1 13 CPU 1 Example.zero_params) 0%nat [0] 0 true
    = (Ok dec, 0%nat) /\
    forall i, In i (action dec) -> nth (chosen dec) d 0 <= nth i d 0.
Proof.
  split; [reflexivity |]. split; [lia |].
  destruct (act_rebel_chosen_is_threshold (T := LowerFirstTorch)
              1 13 CPU 1 Example.zero_params 0%nat [0] 0 eq_refl (le_n 13))
    as (d & embed & dec & _ & Hact & _ & Hmin & _).
  exists d, dec. split; [exact Hact | exact Hmin].
Defined.

(** [act_topk_all_actions] on the scenario: [topk = 5]. *)
Lemma act_topk_all_actions_witness :
  length [0; 0; 0; 0] = 4%nat /\ (1 < 5)%nat /\
  exists dec,
    act (T := LowerFirstTorch) Example.scenario_agent 0%nat [0; 0; 0; 0]
        (Z.of_nat 5) false
    = (Ok dec, 0%nat) /\
    Permutation (action dec) (seq 0 5).
Proof.
  split; [reflexivity |]. split; [lia |].
  exact (act_topk_all_actions (T := LowerFirstTorch)
           4 5 CPU 3 Example.scenario_params 0%nat [0; 0; 0; 0]
           eq_refl ltac:(lia)).
Defined.

(** [act_log_probs_nonpositive] on the scenario, [topk = 2]. *)
Lemma act_log_probs_nonpositive_witness :
  length [0; 0; 0; 0] = 4%nat /\ (1 < 2)%Z /\ (requested 2 false <= 5)%nat /\
  exists dec,
    act (T := LowerFirstTorch) Example.scenario_agent 0%nat [0; 0; 0; 0] 2 false
    = (Ok dec, 0%nat) /\
    Forall (Forall (fun lp => lp <= 0)) (log_probs dec).
Proof.
  split; [reflexivity |]. split; [lia |]. split; [simpl; lia |].
  exact (act_log_probs_nonpositive (T := LowerFirstTorch)
           4 5 CPU 3 Example.scenario_params 0%nat [0; 0; 0; 0] 2 false
           eq_refl (or_intror eq_refl) ltac:(simpl; lia)).
Defined.

(** [act_ranked_log_probs_sorted] on the scenario, [topk = 4]. *)
Lemma act_ranked_log_probs_sorted_witness :
  length [0; 0; 0; 0] = 4%nat /\ (1 < 4)%Z /\ (requested 4 false <= 5)%nat /\
  exists dec row,
    act (T := LowerFirstTorch) Example.scenario_agent 0%nat [0; 0; 0; 0] 4 false
    = (Ok dec, 0%nat) /\
    log_probs dec = [row] /\
    StronglySorted Rge row.
Proof.
  split; [reflexivity |]. split; [lia |]. split; [simpl; lia |].
  destruct (act_ranked_log_probs_sorted (T := LowerFirstTorch)
              4 5 CPU 3 Example.scenario_params 0%nat [0; 0; 0; 0] 4 false
              eq_refl (or_intror eq_refl) ltac:(simpl; lia))
    as (dec & row & Hact & Hrow & _ & Hs).
  exists dec, row. split; [exact Hact |]. split; [exact Hrow | exact Hs].
Defined.

(** [groups_success_iff]: a location that holds everything. *)
Lemma groups_success_iff_witness :
  Vitaboard.groups
    (Vitaboard.mkEnv nat nat (fun _ => true)
       (fun _ => Vitaboard.Returned (Vitaboard.Data 7%nat))
       (fun _ => Vitaboard.Raised))
    (Vitaboard.mkRequest "POST" [("location", "runs/agent_0")%string])
  = Vitaboard.Jsonify nat nat
      [("title", Vitaboard.JString nat nat "Success");
       ("text", Vitaboard.JString nat nat "Groups generated successfully");
       ("icon", Vitaboard.JString nat nat "success");
       ("coord", Vitaboard.JCoord nat nat 7%nat)]%string.
Proof.
  apply (groups_success_iff nat nat
           (Vitaboard.mkEnv nat nat (fun _ => true)
              (fun _ => Vitaboard.Returned (Vitaboard.Data 7%nat))
              (fun _ => Vitaboard.Raised))
           (Vitaboard.mkRequest "POST" [("location", "runs/agent_0")%string])
           "runs/agent_0" 7%nat eq_refl eq_refl).
  repeat split; reflexivity.
Defined.

(** [stats_error_needs_all_three]: only the variance is there. *)
Lemma stats_error_needs_all_three_witness :
  Vitaboard.stats
    (Vitaboard.mkEnv nat nat (fun _ => true)
       (fun _ => Vitaboard.Raised)
       (fun _ => Vitaboard.Returned
                   (Vitaboard.MinusOne, Vitaboard.Data 3%nat, Vitaboard.MinusOne)))
    (Vitaboard.mkRequest "POST" [("location", "runs/agent_0")%string])
  = Vitaboard.Jsonify nat nat
      [("title", Vitaboard.JString nat nat "Success");
       ("text", Vitaboard.JString nat nat "Stats generated successfully");
       ("icon", Vitaboard.JString nat nat "success");
       ("mean", Vitaboard.JNumber nat nat (-1));
       ("variance", Vitaboard.JStat nat nat 3%nat);
       ("qof", Vitaboard.JNumber nat nat (-1))]%string.
Proof.
  apply (proj2 (stats_error_needs_all_three nat nat
           (Vitaboard.mkEnv nat nat (fun _ => true)
              (fun _ => Vitaboard.Raised)
              (fun _ => Vitaboard.Returned
                          (Vitaboard.MinusOne, Vitaboard.Data 3%nat,
                           Vitaboard.MinusOne)))
           (Vitaboard.mkRequest "POST" [("location", "runs/agent_0")%string])
           "runs/agent_0" Vitaboard.MinusOne (Vitaboard.Data 3%nat)
           Vitaboard.MinusOne eq_refl eq_refl eq_refl eq_refl)).
  intros (_ & H & _). discriminate H.
Defined.

(** [views_skip_helpers] on a file system that holds nothing. *)
Lemma views_skip_helpers_witness :
  Vitaboard.groups
    (Vitaboard.mkEnv nat nat (fun _ => false)
       (fun _ => Vitaboard.Returned (Vitaboard.Data 7%nat))
       (fun _ => Vitaboard.Raised))
    (Vitaboard.mkRequest "POST" [("location", "runs/agent_0")%string])
  = Vitaboard.groups
      (Vitaboard.mkEnv nat nat (fun _ => false)
         (fun _ => Vitaboard.Raised) (fun _ => Vitaboard.Raised))
      (Vitaboard.mkRequest "POST" [("location", "runs/agent_0")%string]).
Proof.
  apply (views_skip_helpers nat nat
           (Vitaboard.mkEnv nat nat (fun _ => false)
              (fun _ => Vitaboard.Raised) (fun _ => Vitaboard.Raised))
           (Vitaboard.mkRequest "POST" [("location", "runs/agent_0")%string])
           "runs/agent_0" eq_refl eq_refl (or_introl eq_refl)).
Defined.


(** [index_npy_anywhere]: [data.npy.bak] passes the name test. *)
Lemma index_npy_anywhere_witness :
  fst (VitaboardIndex.index
         (VitaboardIndex.mkEnv (fun _ => VitaboardIndex.NoData) (fun _ fs => fs))
         (VitaboardIndex.update (fun _ => None) "data.npy.bak"
            (Some (VitaboardIndex.File "")))
         (Vitaboard.mkRequest "POST"
            [("file_location", "data.npy.bak"); ("speed", "2")]%string))
  <> VitaboardIndex.error "You need to pass a npy file".
Proof.
  apply (proj2 (index_npy_anywhere
                  (VitaboardIndex.mkEnv (fun _ => VitaboardIndex.NoData) (fun _ fs => fs))
                  (VitaboardIndex.update (fun _ => None) "data.npy.bak"
                     (Some (VitaboardIndex.File "")))
                  (Vitaboard.mkRequest "POST"
                     [("file_location", "data.npy.bak"); ("speed", "2")]%string)
                  "data.npy.bak" "2" eq_refl eq_refl eq_refl eq_refl)
               "data"%string ".bak"%string eq_refl).
Defined.

(** [index_runs_and_cleans_up]: a visualizer that touches nothing, in a
    directory where an older [pass_params.txt] lies around. *)
Lemma index_runs_and_cleans_up_witness :
  exists fs',
    VitaboardIndex.index
      (VitaboardIndex.mkEnv (fun _ => VitaboardIndex.Bytes "print(1)") (fun _ fs => fs))
      (VitaboardIndex.update
         (VitaboardIndex.update (fun _ => None) "run.npy"
            (Some (VitaboardIndex.File "")))
         "pass_params.txt" (Some (VitaboardIndex.File "old")))
      (Vitaboard.mkRequest "POST"
         [("file_location", "run.npy"); ("speed", "2")]%string)
    = (VitaboardIndex.success, fs') /\
    fs' "pass_params.txt"%string = None /\
    fs' "visualizer.py"%string = None.
Proof.
  destruct (index_runs_and_cleans_up
              (VitaboardIndex.mkEnv (fun _ => VitaboardIndex.Bytes "print(1)")
                 (fun _ fs => fs))
              (VitaboardIndex.update
                 (VitaboardIndex.update (fun _ => None) "run.npy"
                    (Some (VitaboardIndex.File "")))
                 "pass_params.txt" (Some (VitaboardIndex.File "old")))
              (Vitaboard.mkRequest "POST"
                 [("file_location", "run.npy"); ("speed", "2")]%string)
              "run.npy" "2" "print(1)"
              (("run.npy" ++ VitaboardIndex.newline)
               ++ ("2" ++ VitaboardIndex.newline))
              "print(1)"
              eq_refl eq_refl eq_refl eq_refl eq_refl
              ltac:(vm_compute; discriminate) ltac:(vm_compute; discriminate)
              eq_refl eq_refl eq_refl)
    as (fs' & Hidx & Hp & Hv & _).
  exists fs'. split; [exact Hidx |]. split; [exact Hp | exact Hv].
Defined.

(** [index_cleanup_fails_when_params_gone]: a visualizer that deletes its
    parameter file. *)
Lemma index_cleanup_fails_when_params_gone_witness :
  fst (VitaboardIndex.index
         (VitaboardIndex.mkEnv (fun _ => VitaboardIndex.Bytes "print(1)")
            (fun _ fs => VitaboardIndex.update fs "pass_params.txt" None))
         (VitaboardIndex.update (fun _ => None) "run.npy"
            (Some (VitaboardIndex.File "")))
         (Vitaboard.mkRequest "POST"
            [("file_location", "run.npy"); ("speed", "2")]%string))
  = VitaboardIndex.Raised VitaboardIndex.FileNotFoundError /\
  snd (VitaboardIndex.index
         (VitaboardIndex.mkEnv (fun _ => VitaboardIndex.Bytes "print(1)")
            (fun _ fs => VitaboardIndex.update fs "pass_params.txt" None))
         (VitaboardIndex.update (fun _ => None) "run.npy"
            (Some (VitaboardIndex.File "")))
         (Vitaboard.mkRequest "POST"
            [("file_location", "run.npy"); ("speed", "2")]%string))
    "visualizer.py"%string
  = Some (VitaboardIndex.File "print(1)").
Proof.
  rewrite (index_cleanup_fails_when_params_gone
             (VitaboardIndex.mkEnv (fun _ => VitaboardIndex.Bytes "print(1)")
                (fun _ fs => VitaboardIndex.update fs "pass_params.txt" None))
             (VitaboardIndex.update (fun _ => None) "run.npy"
                (Some (VitaboardIndex.File "")))
             (Vitaboard.mkRequest "POST"
                [("file_location", "run.npy"); ("speed", "2")]%string)
             "run.npy" "2" "print(1)"
             eq_refl eq_refl eq_refl eq_refl eq_refl
             ltac:(vm_compute; discriminate) ltac:(vm_compute; discriminate)
             eq_refl eq_refl).
  split; reflexivity.
Defined.

(** * Rankings without ties *)

Module RankingFacts.

Import ForwardFacts ActFacts MoreFacts.

(** Two selections from one row of pairwise distinct values, the shorter
    one is the beginning of the longer one.  [excl] holds the indices
    both have ranked already. *)
Lemma selections_agree (d : list R) :
  NoDup d ->
  forall ids ids' excl,
    NoDup ids -> NoDup ids' ->
    Forall (fun i => (i < length d)%nat) ids ->
    Forall (fun i => (i < length d)%nat) ids' ->
    (forall i, In i ids -> ~ In i excl) ->
    (forall i, In i ids' -> ~ In i excl) ->
    StronglySorted Rge (map (fun i => nth i d 0) ids) ->
    StronglySorted Rge (map (fun i => nth i d 0) ids') ->
    (forall j, (j < length d)%nat -> ~ In j excl -> ~ In j ids ->
               forall i, In i ids -> nth j d 0 <= nth i d 0) ->
    (forall j, (j < length d)%nat -> ~ In j excl -> ~ In j ids' ->
               forall i, In i ids' -> nth j d 0 <= nth i d 0) ->
    (length ids <= length ids')%nat ->
    ids = firstn (length ids) ids'.
Proof.
  intros Hd.
  assert (Hinj : forall i j, (i < length d)%nat -> (j < length d)%nat ->
                             nth i d 0 = nth j d 0 -> i = j).
  { intros i j Hi Hj. now apply (proj1 (NoDup_nth d 0) Hd). }
  induction ids as [|i t IH]; intros ids' excl Hn Hn' Hr Hr' He He' Hs Hs' Hl Hl' Hlen.
  - reflexivity.
  - destruct ids' as [|i' t']; [simpl in Hlen; lia |].
    apply NoDup_cons_iff in Hn. destruct Hn as [Hit Hnt].
    apply NoDup_cons_iff in Hn'. destruct Hn' as [Hit' Hnt'].
    inversion Hr as [|? ? Hi Hrt]; subst.
    inversion Hr' as [|? ? Hi' Hrt']; subst.
    simpl in Hs, Hs'.
    apply StronglySorted_inv in Hs. destruct Hs as [Hst Hsi].
    apply StronglySorted_inv in Hs'. destruct Hs' as [Hst' Hsi'].
    rewrite Forall_forall in Hsi, Hsi'.
    assert (Heq : i = i').
    { destruct (Nat.eq_dec i i') as [E | Hne]; [exact E | exfalso].
      assert (Hv : nth i d 0 <> nth i' d 0)
        by (intros E; apply Hne; now apply Hinj).
      destruct (Rlt_le_dec (nth i' d 0) (nth i d 0)) as [Hlt | Hle].
      - assert (Hout : ~ In i (i' :: t')).
        { intros [E | Hin]; [now apply Hne |].
          specialize (Hsi' _ (in_map (fun i => nth i d 0) _ _ Hin)). lra. }
        specialize (Hl' i Hi (He i (or_introl eq_refl)) Hout i' (or_introl eq_refl)).
        lra.
      - assert (Hout : ~ In i' (i :: t)).
        { intros [E | Hin]; [now apply Hne |].
          specialize (Hsi _ (in_map (fun i => nth i d 0) _ _ Hin)). lra. }
        specialize (Hl i' Hi' (He' i' (or_introl eq_refl)) Hout i (or_introl eq_refl)).
        lra. }
    subst i'. simpl. f_equal.
    apply (IH t' (i :: excl)); try assumption.
    + intros x Hx [E | Hin]; [subst x; contradiction |].
      exact (He x (or_intror Hx) Hin).
    + intros x Hx [E | Hin]; [subst x; contradiction |].
      exact (He' x (or_intror Hx) Hin).
    + intros j Hj Hje Hjt x Hx.
      apply (Hl j Hj); [| | now right].
      * intros Hin. apply Hje. now right.
      * intros [E | Hin]; [apply Hje; now left | contradiction].
    + intros j Hj Hje Hjt x Hx.
      apply (Hl' j Hj); [| | now right].
      * intros Hin. apply Hje. now right.
      * intros [E | Hin]; [apply Hje; now left | contradiction].
    + simpl in Hlen. lia.
Qed.

Lemma is_topk_prefix (d : list R) k k' vs vs' ids ids' :
  NoDup d -> (k <= k')%nat ->
  is_topk d k vs ids -> is_topk d k' vs' ids' ->
  ids = firstn k ids' /\ vs = firstn k vs'.
Proof.
  intros Hd Hk [Hlen Hn Hr Hv Hs Hl] [Hlen' Hn' Hr' Hv' Hs' Hl'].
  assert (Hids : ids = firstn k ids').
  { rewrite <- Hlen at 1.
    apply (selections_agree d Hd ids ids' []); try assumption.
    - intros i _ [].
    - intros i _ [].
    - now rewrite <- Hv.
    - now rewrite <- Hv'.
    - intros j Hj _ Hout i Hi. specialize (Hl j Hj Hout).
      rewrite Forall_forall in Hl. apply Hl. rewrite Hv.
      now apply (in_map (fun i => nth i d 0)).
    - intros j Hj _ Hout i Hi. specialize (Hl' j Hj Hout).
      rewrite Forall_forall in Hl'. apply Hl'. rewrite Hv'.
      now apply (in_map (fun i => nth i d 0)).
    - lia. }
  split; [exact Hids |].
  rewrite Hv, Hv', Hids. symmetry. apply firstn_map.
Qed.

Lemma is_topk_unique (d : list R) k vs vs' ids ids' :
  NoDup d ->
  is_topk d k vs ids -> is_topk d k vs' ids' ->
  ids = ids' /\ vs = vs'.
Proof.
  intros Hd H H'.
  destruct (is_topk_prefix d k k vs vs' ids ids' Hd (le_n k) H H') as [Hi Hv].
  pose proof (topk_length _ _ _ _ H') as Hlen'.
  assert (Hvl : length vs' = k).
  { rewrite (topk_values _ _ _ _ H'), length_map. exact Hlen'. }
  rewrite firstn_all2 in Hi by lia. rewrite firstn_all2 in Hv by lia.
  split; assumption.
Qed.

Lemma map_nth_seq (ps : list R) (x : R) :
  map (fun j => nth j ps x) (seq 0 (length ps)) = ps.
Proof.
  induction ps as [|p ps IH]; simpl; [reflexivity |].
  f_equal. rewrite <- seq_shift, map_map. exact IH.
Qed.

(** [fixed_policy ps] produces [ps]. *)
Lemma fixed_policy_forward s_size dev h_size (ps state : list R) :
  Forall (fun p => 0 < p) ps -> sum ps = 1 ->
  length state = s_size ->
  exists embed,
    forward (Agent_init s_size (length ps) dev h_size (fixed_policy ps))
            (unsqueeze0 (from_numpy state))
    = Ok (mkTensor [ps] true, embed).
Proof.
  intros Hpos Hsum Hlen.
  rewrite (forward_value s_size (length ps) dev h_size _ state Hlen).
  cbn [fixed_policy fc1_weight fc1_bias fc2_weight fc2_bias].
  eexists. f_equal. f_equal. f_equal. f_equal.
  unfold softmax_row.
  match goal with
  | |- map _ ?logit = _ =>
      assert (Hexp : map exp logit = ps)
  end.
  { rewrite map_map. rewrite <- (map_nth_seq ps 1) at 2.
    apply map_ext_in. intros j Hj. apply in_seq in Hj.
    rewrite ExampleFacts.dot_zero, Rplus_0_l.
    apply exp_ln. rewrite Forall_forall in Hpos. apply Hpos, nth_In. lia. }
  rewrite Hexp, Hsum.
  rewrite <- Hexp at 2. rewrite <- (map_map exp (fun v => v / 1)).
  rewrite Hexp. rewrite <- (map_id ps) at 2.
  apply map_ext. intros p. apply Rdiv_1_r.
Qed.

End RankingFacts.

(** X19. When no two actions have the same probability, the decision of
    a rebel or top-k call does not depend on the library: any two
    implementations of [torch.topk] within its contract lead [act] to the
    same ranked indices, chosen action, log-probabilities and embedding.
    Ties are the only freedom the contract leaves. *)
Theorem act_ranked_same_for_every_library (T1 T2 : Torch)
    s_size a_size dev h_size theta
    (g1 : @Generator T1) (g2 : @Generator T2) state (topk : Z)
    (is_rebel : bool) d embed :
  length state = s_size ->
  forward (Agent_init s_size a_size dev h_size theta)
          (unsqueeze0 (from_numpy state))
  = Ok (mkTensor [d] true, embed) ->
  NoDup d ->
  (is_rebel = true \/ (1 < topk)%Z) ->
  (requested topk is_rebel <= a_size)%nat ->
  exists dec,
    act (T := T1) (Agent_init s_size a_size dev h_size theta)
        g1 state topk is_rebel = (Ok dec, g1) /\
    act (T := T2) (Agent_init s_size a_size dev h_size theta)
        g2 state topk is_rebel = (Ok dec, g2).
Proof.
  intros Hlen Hfw Hd Hmode Hreq. unfold requested in Hreq.
  assert (Hk : (0 < (if is_rebel then 13%nat else Z.to_nat topk) <= a_size)%nat).
  { destruct is_rebel; [lia |].
    destruct Hmode as [Hm | Hm]; [discriminate |].
    pose proof Hm as Hm'. apply Z.ltb_lt in Hm'. rewrite Hm' in Hreq. lia. }
  destruct (ActFacts.act_selects (T := T1) s_size a_size dev h_size theta
              g1 state topk is_rebel _ Hlen eq_refl Hmode Hk)
    as (d1 & e1 & vs1 & ids1 & a1 & Hfw1 & _ & _ & Hs1 & Ha1 & Hact1).
  destruct (ActFacts.act_selects (T := T2) s_size a_size dev h_size theta
              g2 state topk is_rebel _ Hlen eq_refl Hmode Hk)
    as (d2 & e2 & vs2 & ids2 & a2 & Hfw2 & _ & _ & Hs2 & Ha2 & Hact2).
  rewrite Hfw in Hfw1, Hfw2.
  injection Hfw1 as <- <-. injection Hfw2 as <- <-.
  destruct (RankingFacts.is_topk_unique d _ vs1 vs2 ids1 ids2 Hd Hs1 Hs2)
    as [-> ->].
  rewrite Ha1 in Ha2. injection Ha2 as <-.
  eexists. split; [exact Hact1 | exact Hact2].
Qed.

(** X20. When no two actions have the same probability, a top-k call
    with [topk <= 13] returns the beginning of what a rebel call returns
    on the same state: the first [topk] ranked indices and their
    log-probabilities; its chosen action is the first of the rebel
    ranking. *)
Theorem act_topk_begins_rebel (T : Torch) s_size a_size dev h_size theta
    g state (topk : Z) d embed :
  length state = s_size ->
  forward (Agent_init s_size a_size dev h_size theta)
          (unsqueeze0 (from_numpy state))
  = Ok (mkTensor [d] true, embed) ->
  NoDup d ->
  (1 < topk)%Z ->
  (Z.to_nat topk <= 13)%nat ->
  (13 <= a_size)%nat ->
  exists dec_k dec_r row,
    act (Agent_init s_size a_size dev h_size theta) g state topk false
    = (Ok dec_k, g) /\
    act (Agent_init s_size a_size dev h_size theta) g state topk true
    = (Ok dec_r, g) /\
    action dec_k = firstn (Z.to_nat topk) (action dec_r) /\
    log_probs dec_r = [row] /\
    log_probs dec_k = [firstn (Z.to_nat topk) row] /\
    nth_error (action dec_r) 0 = Some (chosen dec_k).
Proof.
  intros Hlen Hfw Hd Hk Hk13 Ha.
  destruct (ActFacts.act_selects s_size a_size dev h_size theta
              g state topk false (Z.to_nat topk) Hlen eq_refl (or_intror Hk))
    as (d1 & e1 & vs1 & ids1 & a1 & Hfw1 & _ & _ & Hs1 & Ha1 & Hact1); [lia |].
  destruct (ActFacts.act_selects s_size a_size dev h_size theta
              g state topk true 13 Hlen eq_refl (or_introl eq_refl))
    as (d2 & e2 & vs2 & ids2 & a2 & Hfw2 & _ & _ & Hs2 & Ha2 & Hact2); [lia |].
  rewrite Hfw in Hfw1, Hfw2.
  injection Hfw1 as <- <-. injection Hfw2 as <- <-.
  destruct (RankingFacts.is_topk_prefix d _ _ vs1 vs2 ids1 ids2 Hd Hk13 Hs1 Hs2)
    as [Hids Hvs].
  exists (mkDecision ids1 a1 [map ln vs1] embed),
         (mkDecision ids2 a2 [map ln vs2] embed), (map ln vs2).
  split; [exact Hact1 |]. split; [exact Hact2 |]. simpl.
  split; [exact Hids |]. split; [reflexivity |].
  split; [now rewrite Hvs, firstn_map |].
  apply ActFacts.at_first_nth in Ha1.
  rewrite Hids in Ha1.
  destruct ids2 as [|i2 t2]; destruct (Z.to_nat topk);
    simpl in Ha1 |- *; try discriminate; exact Ha1.
Qed.

(** [act_ranked_same_for_every_library]: the two libraries built above,
    on the distribution [1/4, 3/4]. *)
Lemma act_ranked_same_for_every_library_witness :
  exists dec,
    act (T := LowerFirstTorch)
        (Agent_init 1 2 CPU 1 (fixed_policy [1/4; 3/4])) 0%nat [0] 2 false
    = (Ok dec, 0%nat) /\
    act (T := HigherFirstTorch)
        (Agent_init 1 2 CPU 1 (fixed_policy [1/4; 3/4])) 0%nat [0] 2 false
    = (Ok dec, 0%nat).
Proof.
  assert (Hpos : Forall (fun p => 0 < p) [1/4; 3/4])
    by (repeat constructor; lra).
  assert (Hsum : sum [1/4; 3/4] = 1) by (simpl; lra).
  assert (Hnd : NoDup [1/4; 3/4]).
  { repeat constructor; simpl; intuition lra. }
  destruct (RankingFacts.fixed_policy_forward 1 CPU 1 [1/4; 3/4] [0]
              Hpos Hsum eq_refl) as [embed Hfw].
  exact (act_ranked_same_for_every_library LowerFirstTorch HigherFirstTorch
           1 2 CPU 1 (fixed_policy [1/4; 3/4]) 0%nat 0%nat [0] 2 false
           [1/4; 3/4] embed eq_refl Hfw Hnd (or_intror eq_refl)
           ltac:(simpl; lia)).
Defined.

(** [act_topk_begins_rebel] on the thirteen probabilities of [ladder13],
    [topk = 3]. *)
Lemma act_topk_begins_rebel_witness :
  exists dec_k dec_r,
    act (T := LowerFirstTorch)
        (Agent_init 1 13 CPU 1 (fixed_policy ladder13)) 0%nat [0] 3 false
    = (Ok dec_k, 0%nat) /\
    act (T := LowerFirstTorch)
        (Agent_init 1 13 CPU 1 (fixed_policy ladder13)) 0%nat [0] 3 true
    = (Ok dec_r, 0%nat) /\
    action dec_k = firstn 3 (action dec_r).
Proof.
  assert (Hpos : Forall (fun p => 0 < p) ladder13)
    by (unfold ladder13; repeat constructor; lra).
  assert (Hsum : sum ladder13 = 1) by (unfold ladder13; simpl; lra).
  assert (Hnd : NoDup ladder13).
  { unfold ladder13. repeat (constructor; [simpl; intuition lra |]).
    constructor. }
  destruct (RankingFacts.fixed_policy_forward 1 CPU 1 ladder13 [0]
              Hpos Hsum eq_refl) as [embed Hfw].
  destruct (act_topk_begins_rebel LowerFirstTorch
              1 13 CPU 1 (fixed_policy ladder13) 0%nat [0] 3
              ladder13 embed eq_refl Hfw Hnd eq_refl
              ltac:(simpl; lia) (le_n 13))
    as (dec_k & dec_r & row & H1 & H2 & H3 & _).
  exists dec_k, dec_r. split; [exact H1 |]. split; [exact H2 | exact H3].
Defined.

(** X21. [forward] treats the rows of a batch one by one: on a batch of
    states of length [s_size] it returns one distribution and one
    embedding per state, in order, each equal to what [forward] returns
    for that state alone. *)
Theorem forward_batch_rowwise s_size a_size dev h_size theta
    (rows : list (list R)) (rg : bool) :
  Forall (fun row => length row = s_size) rows ->
  exists P E,
    forward (Agent_init s_size a_size dev h_size theta) (mkTensor rows rg)
    = Ok (mkTensor P true, mkTensor E false) /\
    length P = length rows /\ length E = length rows /\
    forall n row,
      nth_error rows n = Some row ->
      exists p e,
        nth_error P n = Some p /\ nth_error E n = Some e /\
        forward (Agent_init s_size a_size dev h_size theta)
                (unsqueeze0 (from_numpy row))
        = Ok (mkTensor [p] true, mkTensor [e] false).
Proof.
  intros Hrows.
  set (pre := fun row : list R =>
                map (fun j => dot (fc1_weight theta j) row + fc1_bias theta j)
                    (seq 0 h_size)).
  set (logit := fun row : list R =>
                  map (fun j => dot (fc2_weight theta j) (map (Rmax 0) (pre row))
                                + fc2_bias theta j) (seq 0 a_size)).
  exists (map (fun row => softmax_row (logit row)) rows), (map pre rows).
  split; [| split; [apply length_map | split; [apply length_map |]]].
  - unfold forward, linear. cbn [fc1 fc2 Agent_init in_features out_features
                                  weight bias data].
    assert (H1 : forallb (fun row => (length row =? s_size)%nat) rows = true).
    { apply forallb_forall. intros row Hin. apply Nat.eqb_eq.
      rewrite Forall_forall in Hrows. now apply Hrows. }
    rewrite H1. cbn [bind]. unfold relu, clone, detach, softmax.
    cbn [data requires_grad].
    assert (H2 : forallb (fun row => (length row =? h_size)%nat)
                   (map (map (Rmax 0)) (map pre rows)) = true).
    { apply forallb_forall. intros row Hin.
      apply in_map_iff in Hin. destruct Hin as (r1 & <- & Hin).
      apply in_map_iff in Hin. destruct Hin as (r0 & <- & _).
      apply Nat.eqb_eq. unfold pre. now rewrite !length_map, length_seq. }
    fold pre. rewrite H2. cbn [bind data].
    rewrite !map_map. reflexivity.
  - intros n row Hn.
    exists (softmax_row (logit row)), (pre row).
    split; [exact (map_nth_error (fun r => softmax_row (logit r)) n rows Hn) |].
    split; [exact (map_nth_error pre n rows Hn) |].
    apply (ForwardFacts.forward_value s_size a_size dev h_size theta row).
    rewrite Forall_forall in Hrows. apply Hrows.
    now apply nth_error_In in Hn.
Qed.

(** [forward_batch_rowwise] on a batch of two states of the scenario. *)
Lemma forward_batch_rowwise_witness :
  exists P E,
    forward Example.scenario_agent
            (mkTensor [[0; 0; 0; 0]; [1; 2; 3; 4]] false)
    = Ok (mkTensor P true, mkTensor E false) /\
    length P = 2%nat /\ length E = 2%nat.
Proof.
  destruct (forward_batch_rowwise 4 5 CPU 3 Example.scenario_params
              [[0; 0; 0; 0]; [1; 2; 3; 4]] false
              ltac:(repeat constructor))
    as (P & E & Hfw & HP & HE & _).
  exists P, E. split; [exact Hfw |]. split; [exact HP | exact HE].
Defined.
